(** * PixelOS plugin: the host component that drives the [pixelos_ffi] module

    A shallow embedding of
      - [Source/PixelOS/Public/PixelOSComponent.h]
      - [Source/PixelOS/Private/PixelOSComponent.cpp]
      - [Source/PixelOS/Private/OSComputer.cpp]
    followed by the properties the specification states about the module
    lifecycle, the session handle and the per-tick framebuffer copy.

    Conventions.
      - A C++ pointer is an address in [N]; [nullptr] is [0].
      - Every member function of the component is a computation in [M]: it
        reads and writes the fields of the component, appends the calls it
        makes across the engine / module boundary to a history, and either
        returns or stops in a [Fault] (a call through a null function
        pointer, a read past the end of a foreign buffer).
      - What the engine and the loaded module answer is not decided by this
        code; it is collected in a [World], whose answers may depend on the
        history of calls made so far. *)

From Stdlib Require Import Arith NArith List String Bool Lia.
From Stdlib Require Strings.Byte.
Import ListNotations.
Open Scope string_scope.
Open Scope list_scope.
Open Scope N_scope.

(** ** Data *)

Definition ptr := N.
Definition nullptr : ptr := 0.
Definition is_null (p : ptr) : bool := p =? 0.

(** [struct OSConfig { uint32 width; uint32 height; }] *)
Record OSConfig := { width : N; height : N }.

(** The part of a [UTexture2D] this code touches: its dimensions and the bulk
    data of mip 0, as the byte found at each offset. *)
Record UTexture2D := {
  SizeX : N;
  SizeY : N;
  Mip0 : N -> Byte.byte
}.

(** [Mip.BulkData.GetBulkDataSize()] of a [PF_R8G8B8A8] texture: four bytes
    per pixel, no padding. *)
Definition GetBulkDataSize (t : UTexture2D) : N := SizeX t * SizeY t * 4.

(** What [pixelos_get_framebuffer] hands back when it is not null: a bare
    [const uint8*].  [fb_len] is the number of bytes the module really owns
    behind that pointer; the C++ side has no way to read it. *)
Record FrameBuffer := {
  fb_len : N;
  fb_byte : N -> Byte.byte
}.

(** The fields of [class UPixelOSComponent]. *)
Record UPixelOSComponent := {
  OSDisplayTexture : option UTexture2D;
  FFIHandle : ptr;
  OSInstance : ptr;
  pixelos_create : ptr;
  pixelos_destroy : ptr;
  pixelos_step : ptr;
  pixelos_send_key : ptr;
  pixelos_get_framebuffer : ptr
}.

Definition set_OSDisplayTexture (t : option UTexture2D) (c : UPixelOSComponent) :=
  {| OSDisplayTexture := t; FFIHandle := FFIHandle c; OSInstance := OSInstance c;
     pixelos_create := pixelos_create c; pixelos_destroy := pixelos_destroy c;
     pixelos_step := pixelos_step c; pixelos_send_key := pixelos_send_key c;
     pixelos_get_framebuffer := pixelos_get_framebuffer c |}.

Definition set_FFIHandle (h : ptr) (c : UPixelOSComponent) :=
  {| OSDisplayTexture := OSDisplayTexture c; FFIHandle := h; OSInstance := OSInstance c;
     pixelos_create := pixelos_create c; pixelos_destroy := pixelos_destroy c;
     pixelos_step := pixelos_step c; pixelos_send_key := pixelos_send_key c;
     pixelos_get_framebuffer := pixelos_get_framebuffer c |}.

Definition set_OSInstance (i : ptr) (c : UPixelOSComponent) :=
  {| OSDisplayTexture := OSDisplayTexture c; FFIHandle := FFIHandle c; OSInstance := i;
     pixelos_create := pixelos_create c; pixelos_destroy := pixelos_destroy c;
     pixelos_step := pixelos_step c; pixelos_send_key := pixelos_send_key c;
     pixelos_get_framebuffer := pixelos_get_framebuffer c |}.

Definition set_pixelos_create (p : ptr) (c : UPixelOSComponent) :=
  {| OSDisplayTexture := OSDisplayTexture c; FFIHandle := FFIHandle c; OSInstance := OSInstance c;
     pixelos_create := p; pixelos_destroy := pixelos_destroy c;
     pixelos_step := pixelos_step c; pixelos_send_key := pixelos_send_key c;
     pixelos_get_framebuffer := pixelos_get_framebuffer c |}.

Definition set_pixelos_destroy (p : ptr) (c : UPixelOSComponent) :=
  {| OSDisplayTexture := OSDisplayTexture c; FFIHandle := FFIHandle c; OSInstance := OSInstance c;
     pixelos_create := pixelos_create c; pixelos_destroy := p;
     pixelos_step := pixelos_step c; pixelos_send_key := pixelos_send_key c;
     pixelos_get_framebuffer := pixelos_get_framebuffer c |}.

Definition set_pixelos_step (p : ptr) (c : UPixelOSComponent) :=
  {| OSDisplayTexture := OSDisplayTexture c; FFIHandle := FFIHandle c; OSInstance := OSInstance c;
     pixelos_create := pixelos_create c; pixelos_destroy := pixelos_destroy c;
     pixelos_step := p; pixelos_send_key := pixelos_send_key c;
     pixelos_get_framebuffer := pixelos_get_framebuffer c |}.

Definition set_pixelos_send_key (p : ptr) (c : UPixelOSComponent) :=
  {| OSDisplayTexture := OSDisplayTexture c; FFIHandle := FFIHandle c; OSInstance := OSInstance c;
     pixelos_create := pixelos_create c; pixelos_destroy := pixelos_destroy c;
     pixelos_step := pixelos_step c; pixelos_send_key := p;
     pixelos_get_framebuffer := pixelos_get_framebuffer c |}.

Definition set_pixelos_get_framebuffer (p : ptr) (c : UPixelOSComponent) :=
  {| OSDisplayTexture := OSDisplayTexture c; FFIHandle := FFIHandle c; OSInstance := OSInstance c;
     pixelos_create := pixelos_create c; pixelos_destroy := pixelos_destroy c;
     pixelos_step := pixelos_step c; pixelos_send_key := pixelos_send_key c;
     pixelos_get_framebuffer := p |}.

(** ** Calls across the boundary

    One constructor per engine or module function the two classes call.  A
    call that returns something the code uses records the answer as well. *)
Inductive Event :=
| EvGetDllHandle (answer : ptr)
| EvGetDllExport (module : ptr) (name : string) (answer : ptr)
| EvFreeDllHandle (module : ptr)
| EvCreate (config : OSConfig) (answer : ptr)
| EvDestroy (instance : ptr)
| EvStep (instance : ptr)
| EvSendKey (instance : ptr) (keycode modifiers : N)
| EvGetFramebuffer (instance : ptr) (answered_null : bool)
| EvCreateTransient (w h : N)
| EvLock
| EvMemcpy (bytes : N)
| EvUnlock
| EvUpdateResource
| EvMaterialCreate
| EvSetTextureParameterValue (name : string)
| EvSetMaterial (index : N).

Definition History := list Event.

(** The answers of everything outside the two classes. *)
Record World := {
  (** [FPaths::FileExists(ffiLibPath)] *)
  file_exists : bool;
  (** [FPlatformProcess::GetDllHandle] on the library path *)
  dll_handle : History -> ptr;
  (** [FPlatformProcess::GetDllExport(handle, name)] *)
  dll_export : History -> ptr -> string -> ptr;
  (** the module's [pixelos_create] *)
  vm_create : History -> OSConfig -> ptr;
  (** the module's [pixelos_get_framebuffer]; [None] is a null pointer *)
  vm_get_framebuffer : History -> ptr -> option FrameBuffer;
  (** the contents of freshly allocated bulk data *)
  fresh_bulk : History -> N -> Byte.byte
}.

(** ** The computation monad *)

Inductive Fault :=
| NullCall (entry : string)
| ReadPastEnd (wanted have : N).

Inductive Outcome (A : Type) :=
| Ret (a : A) (c : UPixelOSComponent) (log : History)
| Crash (f : Fault) (log : History).
Arguments Ret {A} a c log.
Arguments Crash {A} f log.

Definition M (A : Type) := UPixelOSComponent -> History -> Outcome A.

Definition ret {A} (a : A) : M A := fun c h => Ret a c h.

Definition bind {A B} (m : M A) (k : A -> M B) : M B :=
  fun c h =>
    match m c h with
    | Ret a c' h' => k a c' h'
    | Crash f h' => Crash f h'
    end.

Definition this : M UPixelOSComponent := fun c h => Ret c c h.
Definition past : M History := fun c h => Ret h c h.
Definition assign (f : UPixelOSComponent -> UPixelOSComponent) : M unit :=
  fun c h => Ret tt (f c) h.
Definition emit (e : Event) : M unit := fun c h => Ret tt c (h ++ [e]).
Definition crash {A} (f : Fault) : M A := fun _ h => Crash f h.

Declare Scope comp_scope.
Delimit Scope comp_scope with comp.
Notation "x <- m ;; k" := (bind m (fun x => k))
  (at level 61, m at next level, right associativity) : comp_scope.
Notation "m ;; k" := (bind m (fun _ => k))
  (at level 61, right associativity) : comp_scope.
Open Scope comp_scope.

(** The history an outcome ends with, and the component it leaves (if the
    computation returned). *)
Definition log_of {A} (o : Outcome A) : History :=
  match o with Ret _ _ h => h | Crash _ h => h end.

Definition final {A} (o : Outcome A) : option UPixelOSComponent :=
  match o with Ret _ c _ => Some c | Crash _ _ => None end.

Definition returns {A} (o : Outcome A) : bool :=
  match o with Ret _ _ _ => true | Crash _ _ => false end.

(** ** The component, function by function *)

(** [UPixelOSComponent::UPixelOSComponent()].  The constructor assigns three
    of the eight fields; the five function pointers keep whatever the storage
    held ([raw]).  ([PrimaryComponentTick.bCanEverTick] only asks the engine
    to schedule [TickComponent] and is not a field of this model.) *)
Definition UPixelOSComponent_ctor (raw : UPixelOSComponent) : UPixelOSComponent :=
  set_OSInstance nullptr (set_FFIHandle nullptr (set_OSDisplayTexture None raw)).

(** Storage as the engine's object allocator hands it out: all zero. *)
Definition zeroed : UPixelOSComponent :=
  {| OSDisplayTexture := None; FFIHandle := nullptr; OSInstance := nullptr;
     pixelos_create := nullptr; pixelos_destroy := nullptr;
     pixelos_step := nullptr; pixelos_send_key := nullptr;
     pixelos_get_framebuffer := nullptr |}.

Section Component.

Variable W : World.

(** *** Engine functions *)

Definition GetDllHandle : M ptr :=
  h <- past ;;
  let answer := dll_handle W h in
  emit (EvGetDllHandle answer) ;;
  ret answer.

Definition GetDllExport (module : ptr) (name : string) : M ptr :=
  h <- past ;;
  let answer := dll_export W h module name in
  emit (EvGetDllExport module name answer) ;;
  ret answer.

Definition FreeDllHandle (module : ptr) : M unit :=
  emit (EvFreeDllHandle module).

(** [UTexture2D::CreateTransient(w, h, PF_R8G8B8A8)]: engine code.  It
    answers a new texture of [w * h * 4] bytes when both dimensions are
    positive (the block size of the format is 1), a null pointer
    otherwise. *)
Definition CreateTransient (w h : N) : M (option UTexture2D) :=
  hist <- past ;;
  emit (EvCreateTransient w h) ;;
  ret (if (0 <? w) && (0 <? h)
       then Some {| SizeX := w; SizeY := h; Mip0 := fresh_bulk W hist |}
       else None).

(** [FMemory::Memcpy(TextureData, framebuffer, n)] between [Lock] and
    [Unlock] on mip 0 of [tex]: offsets below [n] take the bytes of the
    source.  The source has [fb_len] bytes; asking for more reads past its
    end, which C++ leaves undefined: the computation stops there. *)
Definition Memcpy (tex : UTexture2D) (src : FrameBuffer) (n : N) : M unit :=
  if n <=? fb_len src then
    emit (EvMemcpy n) ;;
    assign (set_OSDisplayTexture
              (Some {| SizeX := SizeX tex; SizeY := SizeY tex;
                       Mip0 := fun i => if i <? n then fb_byte src i else Mip0 tex i |}))
  else crash (ReadPastEnd n (fb_len src)).

(** *** Calls through the resolved function pointers

    [BootOS] tests [pixelos_create] itself; the other call sites do not
    test the pointer they call through.  A call through a null function
    pointer is undefined in C++: the computation stops there.  The answers
    are those of the mapped module: what a call through a pointer left over
    from a module that was freed does is not described here. *)

Definition call_pixelos_create (config : OSConfig) : M ptr :=
  h <- past ;;
  let answer := vm_create W h config in
  emit (EvCreate config answer) ;;
  ret answer.

Definition call_pixelos_destroy (instance : ptr) : M unit :=
  c <- this ;;
  if is_null (pixelos_destroy c) then crash (NullCall "pixelos_destroy")
  else emit (EvDestroy instance).

Definition call_pixelos_step (instance : ptr) : M unit :=
  c <- this ;;
  if is_null (pixelos_step c) then crash (NullCall "pixelos_step")
  else emit (EvStep instance).

Definition call_pixelos_get_framebuffer (instance : ptr) : M (option FrameBuffer) :=
  c <- this ;;
  if is_null (pixelos_get_framebuffer c) then crash (NullCall "pixelos_get_framebuffer")
  else
    h <- past ;;
    let answer := vm_get_framebuffer W h instance in
    emit (EvGetFramebuffer instance (match answer with None => true | Some _ => false end)) ;;
    ret answer.

(** *** [PixelOSComponent.cpp] *)

(** [void UPixelOSComponent::LoadFFILibrary()] *)
Definition LoadFFILibrary : M unit :=
  if file_exists W then
    handle <- GetDllHandle ;;
    assign (set_FFIHandle handle) ;;
    if is_null handle then ret tt
    else
      p <- GetDllExport handle "pixelos_create" ;;
      assign (set_pixelos_create p) ;;
      p <- GetDllExport handle "pixelos_destroy" ;;
      assign (set_pixelos_destroy p) ;;
      p <- GetDllExport handle "pixelos_step" ;;
      assign (set_pixelos_step p) ;;
      p <- GetDllExport handle "pixelos_send_key" ;;
      assign (set_pixelos_send_key p) ;;
      p <- GetDllExport handle "pixelos_get_framebuffer" ;;
      assign (set_pixelos_get_framebuffer p)
  else ret tt.

(** The first block of [UnloadFFILibrary]:
    [if (OSInstance) { pixelos_destroy(OSInstance); OSInstance = nullptr; }] *)
Definition destroy_instance : M unit :=
  c <- this ;;
  if is_null (OSInstance c) then ret tt
  else
    call_pixelos_destroy (OSInstance c) ;;
    assign (set_OSInstance nullptr).

(** The second block of [UnloadFFILibrary]:
    [if (FFIHandle) { FreeDllHandle(FFIHandle); FFIHandle = nullptr; }] *)
Definition free_library : M unit :=
  c <- this ;;
  if is_null (FFIHandle c) then ret tt
  else
    FreeDllHandle (FFIHandle c) ;;
    assign (set_FFIHandle nullptr).

(** [void UPixelOSComponent::UnloadFFILibrary()] *)
Definition UnloadFFILibrary : M unit :=
  destroy_instance ;;
  free_library.

(** [void UPixelOSComponent::UpdateTexture()] *)
Definition UpdateTexture : M unit :=
  c <- this ;;
  match is_null (OSInstance c), OSDisplayTexture c with
  | false, Some tex =>
      framebuffer <- call_pixelos_get_framebuffer (OSInstance c) ;;
      match framebuffer with
      | Some src =>
          emit EvLock ;;
          Memcpy tex src (GetBulkDataSize tex) ;;
          emit EvUnlock ;;
          emit EvUpdateResource
      | None => ret tt
      end
  | _, _ => ret tt
  end.

(** [void UPixelOSComponent::TickComponent(...)]; none of the three
    arguments is used by the body. *)
Definition TickComponent : M unit :=
  c <- this ;;
  if is_null (OSInstance c) then ret tt
  else
    call_pixelos_step (OSInstance c) ;;
    UpdateTexture.

(** [void UPixelOSComponent::BootOS(FString OSName)] *)
Definition BootOS (OSName : string) : M unit :=
  c <- this ;;
  if is_null (pixelos_create c) then ret tt
  else
    let config := {| width := 1024; height := 768 |} in
    instance <- call_pixelos_create config ;;
    assign (set_OSInstance instance) ;;
    tex <- CreateTransient (width config) (height config) ;;
    assign (set_OSDisplayTexture tex).

(** [void UPixelOSComponent::BeginPlay()] *)
Definition BeginPlay : M unit := LoadFFILibrary.

(** [void UPixelOSComponent::EndPlay(...)] *)
Definition EndPlay : M unit := UnloadFFILibrary.

(** *** [OSComputer.cpp] *)

(** [void AOSComputer::BeginPlay()].  [Super::BeginPlay()] is the engine's
    [AActor::BeginPlay], which begins play on the actor's components; the
    actor has one, [OSComponent].  The screen mesh is seen through the
    calls made on it. *)
Definition AOSComputer_BeginPlay : M unit :=
  BeginPlay ;;
  BootOS "PixelOS" ;;
  c <- this ;;
  match OSDisplayTexture c with
  | Some _ =>
      emit EvMaterialCreate ;;
      emit (EvSetTextureParameterValue "ScreenTexture") ;;
      emit (EvSetMaterial 0)
  | None => ret tt
  end.

(** *** Runs

    What the host does with a component between [BeginPlay] and [EndPlay]:
    it calls the public [BootOS] and the engine ticks it. *)
Inductive HostCall :=
| CallBootOS (OSName : string)
| CallTick.

Definition host_call (k : HostCall) : M unit :=
  match k with
  | CallBootOS n => BootOS n
  | CallTick => TickComponent
  end.

Fixpoint host_calls (ks : list HostCall) : M unit :=
  match ks with
  | [] => ret tt
  | k :: ks' => host_call k ;; host_calls ks'
  end.

(** A whole play session of a component built on [raw] storage. *)
Definition play (raw : UPixelOSComponent) (ks : list HostCall) : Outcome unit :=
  (BeginPlay ;; host_calls ks ;; EndPlay) (UPixelOSComponent_ctor raw) [].

End Component.

(** ** Reading a history *)

(** The teardown order, watched along a history.  [held] is the instance the
    session holds (the answer of the latest create, until it is destroyed);
    [unloaded] says whether the module has been freed.  The watch stops
    ([None]) at a destroy that comes after the module was freed or that is
    not for the held instance, and at a free of the module made while an
    instance is held. *)
Record Watch := { held : ptr; unloaded : bool }.

Definition watch_event (w : Watch) (e : Event) : option Watch :=
  match e with
  | EvCreate _ answer => Some {| held := answer; unloaded := unloaded w |}
  | EvDestroy i =>
      if negb (unloaded w) && negb (is_null (held w)) && (i =? held w)
      then Some {| held := nullptr; unloaded := unloaded w |}
      else None
  | EvFreeDllHandle _ =>
      if is_null (held w)
      then Some {| held := held w; unloaded := true |}
      else None
  | _ => Some w
  end.

Fixpoint watch (w : Watch) (t : History) : option Watch :=
  match t with
  | [] => Some w
  | e :: t' =>
      match watch_event w e with
      | Some w' => watch w' t'
      | None => None
      end
  end.

Definition teardown_ordered (t : History) : bool :=
  match watch {| held := nullptr; unloaded := false |} t with
  | Some _ => true
  | None => false
  end.

(** The instances the module has handed out and not got back, watched along
    a history.  [live] lists every non-null answer of create that no destroy
    has named yet; [freed] says whether the module has been freed.  The
    ledger stops ([None]) at a destroy made after the free or for an instance
    that is not live, and at a free made while some instance is live. *)
Record Ledger := { live : list ptr; freed : bool }.

Fixpoint remove_one (i : ptr) (l : list ptr) : list ptr :=
  match l with
  | [] => []
  | j :: l' => if i =? j then l' else j :: remove_one i l'
  end.

Definition ledger_event (l : Ledger) (e : Event) : option Ledger :=
  match e with
  | EvCreate _ answer =>
      Some {| live := if is_null answer then live l else answer :: live l;
              freed := freed l |}
  | EvDestroy i =>
      if negb (freed l) && existsb (N.eqb i) (live l)
      then Some {| live := remove_one i (live l); freed := freed l |}
      else None
  | EvFreeDllHandle _ =>
      match live l with
      | [] => Some {| live := []; freed := true |}
      | _ :: _ => None
      end
  | _ => Some l
  end.

Fixpoint ledger (l : Ledger) (t : History) : option Ledger :=
  match t with
  | [] => Some l
  | e :: t' =>
      match ledger_event l e with
      | Some l' => ledger l' t'
      | None => None
      end
  end.

Definition no_instance_outlives_module (t : History) : bool :=
  match ledger {| live := []; freed := false |} t with
  | Some _ => true
  | None => false
  end.

(** Whether every create of a history was made while the session held no
    instance ([held] as in [Watch]). *)
Fixpoint boots_while_idle (held : ptr) (t : History) : bool :=
  match t with
  | [] => true
  | EvCreate _ answer :: t' => is_null held && boots_while_idle answer t'
  | EvDestroy _ :: t' => boots_while_idle nullptr t'
  | _ :: t' => boots_while_idle held t'
  end.

Definition live_of (p : ptr) : list ptr := if is_null p then [] else [p].

Definition is_send_key (e : Event) : bool :=
  match e with EvSendKey _ _ _ => true | _ => false end.

Definition is_free (e : Event) : bool :=
  match e with EvFreeDllHandle _ => true | _ => false end.

Definition is_create (e : Event) : bool :=
  match e with EvCreate _ _ => true | _ => false end.

Definition is_destroy (e : Event) : bool :=
  match e with EvDestroy _ => true | _ => false end.

(** How many events of a kind a history holds. *)
Definition count (kind : Event -> bool) (t : History) : nat :=
  List.length (filter kind t).

(** The byte at offset [i] of the display texture an outcome leaves. *)
Definition surface_byte (o : Outcome unit) (i : N) : option Byte.byte :=
  match final o with
  | Some c => option_map (fun t => Mip0 t i) (OSDisplayTexture c)
  | None => None
  end.

(** ** Sample worlds *)

Definition the_config : OSConfig := {| width := 1024; height := 768 |}.

(** A world whose module file exists and maps at address 7.  [exports] says
    where each symbol resolves, the n-th create answers [first + n] when
    [first] is not null, and every framebuffer request answers [frame]. *)
Definition sample_world (exports : string -> ptr) (first : ptr)
    (frame : option FrameBuffer) : World :=
  {| file_exists := true;
     dll_handle := fun _ => 7;
     dll_export := fun _ _ name => exports name;
     vm_create := fun h _ =>
       if is_null first then nullptr else first + N.of_nat (count is_create h);
     vm_get_framebuffer := fun _ _ => frame;
     fresh_bulk := fun _ _ => Byte.x00 |}.

Definition all_exports (name : string) : ptr :=
  if String.eqb name "pixelos_create" then 11
  else if String.eqb name "pixelos_destroy" then 12
  else if String.eqb name "pixelos_step" then 13
  else if String.eqb name "pixelos_send_key" then 14
  else if String.eqb name "pixelos_get_framebuffer" then 15
  else nullptr.

Definition only_create (name : string) : ptr :=
  if String.eqb name "pixelos_create" then 11 else nullptr.

Definition white (len : N) : FrameBuffer :=
  {| fb_len := len; fb_byte := fun _ => Byte.xff |}.

Definition good_world : World := sample_world all_exports 100 (Some (white 3145728)).
Definition partial_world : World := sample_world only_create 100 (Some (white 3145728)).
Definition failing_create_world : World := sample_world all_exports nullptr (Some (white 3145728)).
Definition no_frame_world : World := sample_world all_exports 100 None.
Definition long_frame_world : World := sample_world all_exports 100 (Some (white 3145732)).
Definition short_frame_world : World := sample_world all_exports 100 (Some (white 16)).

(** A world like [good_world] whose first create answers instance 100 and
    whose later creates answer null. *)
Definition second_create_fails_world : World :=
  {| file_exists := true;
     dll_handle := fun _ => 7;
     dll_export := fun _ _ name => all_exports name;
     vm_create := fun h _ =>
       match count is_create h with O => 100 | S _ => nullptr end;
     vm_get_framebuffer := fun _ _ => Some (white 3145728);
     fresh_bulk := fun _ _ => Byte.x00 |}.

Definition fresh : UPixelOSComponent := UPixelOSComponent_ctor zeroed.

(** The component after [BeginPlay] in a world that exports everything, and
    after a [BootOS] that follows it (see [loaded_is_reached] and
    [booted_is_reached]). *)
Definition loaded : UPixelOSComponent :=
  {| OSDisplayTexture := None; FFIHandle := 7; OSInstance := nullptr;
     pixelos_create := 11; pixelos_destroy := 12; pixelos_step := 13;
     pixelos_send_key := 14; pixelos_get_framebuffer := 15 |}.

Definition black_texture : UTexture2D :=
  {| SizeX := 1024; SizeY := 768; Mip0 := fun _ => Byte.x00 |}.

Definition booted : UPixelOSComponent :=
  set_OSDisplayTexture (Some black_texture) (set_OSInstance 100 loaded).

Definition load_log : History :=
  [ EvGetDllHandle 7;
    EvGetDllExport 7 "pixelos_create" 11;
    EvGetDllExport 7 "pixelos_destroy" 12;
    EvGetDllExport 7 "pixelos_step" 13;
    EvGetDllExport 7 "pixelos_send_key" 14;
    EvGetDllExport 7 "pixelos_get_framebuffer" 15 ].

Definition boot_log : History :=
  load_log ++ [EvCreate the_config 100; EvCreateTransient 1024 768].

(** ** Invariants used by the proofs *)

(** The session is in step with the watch: the watch has seen no violation,
    the module is not freed, and the watch holds what the component's
    [OSInstance] holds. *)
Definition in_step (c : UPixelOSComponent) (h : History) : Prop :=
  watch {| held := nullptr; unloaded := false |} h =
  Some {| held := OSInstance c; unloaded := false |}.

Definition keeps_step (m : M unit) : Prop :=
  forall c h, in_step c h ->
    match m c h with
    | Ret _ c' h' => in_step c' h'
    | Crash _ h' => teardown_ordered h' = true
    end.

(** A computation that never calls the send-key entry. *)
Definition sends_no_key (m : M unit) : Prop :=
  forall c h, count is_send_key (log_of (m c h)) = count is_send_key h.

(** ** Further readings of a history *)

(** Every call into the module, watched for the instance it names.  A create
    must come before the module is freed; a step, a framebuffer request, a
    key event and a destroy must name the held instance, which must not be
    null, and come before the free; the module is freed once, and only when
    no instance is held. *)
Definition session_event (w : Watch) (e : Event) : option Watch :=
  match e with
  | EvCreate _ answer =>
      if unloaded w then None
      else Some {| held := answer; unloaded := false |}
  | EvStep i | EvGetFramebuffer i _ | EvSendKey i _ _ =>
      if negb (unloaded w) && negb (is_null (held w)) && (i =? held w)
      then Some w
      else None
  | EvDestroy i =>
      if negb (unloaded w) && negb (is_null (held w)) && (i =? held w)
      then Some {| held := nullptr; unloaded := unloaded w |}
      else None
  | EvFreeDllHandle _ =>
      if negb (unloaded w) && is_null (held w)
      then Some {| held := held w; unloaded := true |}
      else None
  | _ => Some w
  end.

Fixpoint session (w : Watch) (t : History) : option Watch :=
  match t with
  | [] => Some w
  | e :: t' =>
      match session_event w e with
      | Some w' => session w' t'
      | None => None
      end
  end.

Definition module_calls_ok (t : History) : bool :=
  match session {| held := nullptr; unloaded := false |} t with
  | Some _ => true
  | None => false
  end.

Definition in_session (c : UPixelOSComponent) (h : History) : Prop :=
  session {| held := nullptr; unloaded := false |} h =
  Some {| held := OSInstance c; unloaded := false |}.

Definition keeps_session (m : M unit) : Prop :=
  forall c h, in_session c h ->
    match m c h with
    | Ret _ c' h' => in_session c' h'
    | Crash _ h' => module_calls_ok h' = true
    end.




(** The sizes the component passes across the boundary. *)
Definition fixed_sizes (e : Event) : bool :=
  match e with
  | EvCreate config _ => (width config =? 1024) && (height config =? 768)
  | EvCreateTransient w h => (w =? 1024) && (h =? 768)
  | EvMemcpy n => n =? 3145728
  | _ => true
  end.

Definition texture_is_full_size (c : UPixelOSComponent) : Prop :=
  forall tex, OSDisplayTexture c = Some tex -> GetBulkDataSize tex = 3145728.

Definition is_lock (e : Event) : bool :=
  match e with EvLock => true | _ => false end.

Definition is_memcpy (e : Event) : bool :=
  match e with EvMemcpy _ => true | _ => false end.

Definition is_unlock (e : Event) : bool :=
  match e with EvUnlock => true | _ => false end.

Definition is_update (e : Event) : bool :=
  match e with EvUpdateResource => true | _ => false end.

Definition is_step (e : Event) : bool :=
  match e with EvStep _ => true | _ => false end.

Definition is_boot (k : HostCall) : bool :=
  match k with CallBootOS _ => true | CallTick => false end.

Definition is_tick (k : HostCall) : bool :=
  match k with CallBootOS _ => false | CallTick => true end.

(** A computation that adds at most [n] events of a kind. *)
Definition adds_at_most (kind : Event -> bool) (n : nat) (m : M unit) : Prop :=
  forall c h, (count kind (log_of (m c h)) <= count kind h + n)%nat.

(** A computation that, when it returns, has finished every copy it began:
    it added as many locks as copies, unlocks and resource updates. *)
Definition finishes_copies (m : M unit) : Prop :=
  forall c h,
    match m c h with
    | Ret _ _ h' =>
        exists d : nat,
          count is_lock h' = (count is_lock h + d)%nat
          /\ count is_memcpy h' = (count is_memcpy h + d)%nat
          /\ count is_unlock h' = (count is_unlock h + d)%nat
          /\ count is_update h' = (count is_update h + d)%nat
    | Crash _ _ => True
    end.

(** A component whose three entries called without a test are resolved and
    whose texture, if any, has the fixed size. *)
Definition ready (c : UPixelOSComponent) : Prop :=
  pixelos_destroy c <> nullptr
  /\ pixelos_step c <> nullptr
  /\ pixelos_get_framebuffer c <> nullptr
  /\ texture_is_full_size c.

(** A world whose module exports a name, and one whose framebuffers are
    never shorter than the fixed texture. *)
Definition exports (W : World) (name : string) : Prop :=
  forall h module, dll_export W h module name <> nullptr.

Definition frames_fit (W : World) : Prop :=
  forall h i fb, vm_get_framebuffer W h i = Some fb -> 3145728 <= fb_len fb.

(** A world without the module file, and one whose module does not map. *)
Definition no_file_world : World :=
  {| file_exists := false;
     dll_handle := fun _ => 7;
     dll_export := fun _ _ name => all_exports name;
     vm_create := fun _ _ => 100;
     vm_get_framebuffer := fun _ _ => Some (white 3145728);
     fresh_bulk := fun _ _ => Byte.x00 |}.

Definition no_map_world : World :=
  {| file_exists := true;
     dll_handle := fun _ => nullptr;
     dll_export := fun _ _ name => all_exports name;
     vm_create := fun _ _ => 100;
     vm_get_framebuffer := fun _ _ => Some (white 3145728);
     fresh_bulk := fun _ _ => Byte.x00 |}.


(** A computation that only passes the fixed sizes and keeps the texture
    at the fixed size. *)
Definition keeps_sizes (m : M unit) : Prop :=
  forall c h,
    texture_is_full_size c ->
    forallb fixed_sizes h = true ->
    forallb fixed_sizes (log_of (m c h)) = true
    /\ match final (m c h) with
       | Some c' => texture_is_full_size c'
       | None => True
       end.

(** ** Sanity checks of the embedding *)

Example play_good_world :
  log_of (play good_world zeroed [CallBootOS "PixelOS"; CallTick]) =
  [ EvGetDllHandle 7;
    EvGetDllExport 7 "pixelos_create" 11;
    EvGetDllExport 7 "pixelos_destroy" 12;
    EvGetDllExport 7 "pixelos_step" 13;
    EvGetDllExport 7 "pixelos_send_key" 14;
    EvGetDllExport 7 "pixelos_get_framebuffer" 15;
    EvCreate the_config 100;
    EvCreateTransient 1024 768;
    EvStep 100;
    EvGetFramebuffer 100 false;
    EvLock; EvMemcpy 3145728; EvUnlock; EvUpdateResource;
    EvDestroy 100;
    EvFreeDllHandle 7 ].
Proof. vm_compute. reflexivity. Qed.

Example play_without_boot :
  play good_world zeroed [CallTick; CallTick] =
  Ret tt
    {| OSDisplayTexture := None; FFIHandle := nullptr; OSInstance := nullptr;
       pixelos_create := 11; pixelos_destroy := 12; pixelos_step := 13;
       pixelos_send_key := 14; pixelos_get_framebuffer := 15 |}
    [ EvGetDllHandle 7;
      EvGetDllExport 7 "pixelos_create" 11;
      EvGetDllExport 7 "pixelos_destroy" 12;
      EvGetDllExport 7 "pixelos_step" 13;
      EvGetDllExport 7 "pixelos_send_key" 14;
      EvGetDllExport 7 "pixelos_get_framebuffer" 15;
      EvFreeDllHandle 7 ].
Proof. vm_compute. reflexivity. Qed.

Example partial_module_crashes_on_tick :
  (BeginPlay partial_world ;; BootOS partial_world "PixelOS" ;; TickComponent partial_world)
    fresh [] =
  Crash (NullCall "pixelos_step")
    [ EvGetDllHandle 7;
      EvGetDllExport 7 "pixelos_create" 11;
      EvGetDllExport 7 "pixelos_destroy" 0;
      EvGetDllExport 7 "pixelos_step" 0;
      EvGetDllExport 7 "pixelos_send_key" 0;
      EvGetDllExport 7 "pixelos_get_framebuffer" 0;
      EvCreate the_config 100;
      EvCreateTransient 1024 768 ].
Proof. vm_compute. reflexivity. Qed.

Example loaded_is_reached :
  BeginPlay good_world fresh [] = Ret tt loaded load_log
  /\ BeginPlay no_frame_world fresh [] = Ret tt loaded load_log
  /\ BeginPlay long_frame_world fresh [] = Ret tt loaded load_log
  /\ BeginPlay failing_create_world fresh [] = Ret tt loaded load_log.
Proof. repeat split. Qed.

Example booted_is_reached :
  (BeginPlay good_world ;; BootOS good_world "PixelOS") fresh [] = Ret tt booted boot_log
  /\ (BeginPlay no_frame_world ;; BootOS no_frame_world "PixelOS") fresh [] =
       Ret tt booted boot_log
  /\ (BeginPlay long_frame_world ;; BootOS long_frame_world "PixelOS") fresh [] =
       Ret tt booted boot_log.
Proof. repeat split. Qed.

(** ** Proof tools *)

Lemma is_null_true (p : ptr) : is_null p = true <-> p = nullptr.
Proof. unfold is_null, nullptr. apply N.eqb_eq. Qed.

Lemma is_null_false (p : ptr) : is_null p = false <-> p <> nullptr.
Proof. unfold is_null, nullptr. apply N.eqb_neq. Qed.

Lemma watch_app (w : Watch) (a b : History) :
  watch w (a ++ b) =
  match watch w a with
  | Some w' => watch w' b
  | None => None
  end.
Proof.
  revert w. induction a as [|e a IH]; intros w; simpl.
  - reflexivity.
  - destruct (watch_event w e); [apply IH | reflexivity].
Qed.

Lemma count_app (kind : Event -> bool) (a b : History) :
  count kind (a ++ b) = (count kind a + count kind b)%nat.
Proof. unfold count. rewrite filter_app, length_app. reflexivity. Qed.

(** Unfold one member function down to the monad's primitives. *)
Ltac open_body :=
  unfold AOSComputer_BeginPlay, EndPlay, BeginPlay, UnloadFFILibrary, LoadFFILibrary,
    TickComponent, UpdateTexture, BootOS, destroy_instance, free_library,
    call_pixelos_create, call_pixelos_destroy, call_pixelos_step,
    call_pixelos_get_framebuffer, Memcpy, CreateTransient, FreeDllHandle,
    GetDllExport, GetDllHandle;
  unfold bind, ret, this, past, assign, emit, crash.

(** Decide the tests a body makes, one after the other. *)
Ltac split_tests :=
  repeat (cbn;
          match goal with
          | |- context [if ?b then _ else _] => destruct b eqn:?
          | |- context [match ?o with Some _ => _ | None => _ end] => destruct o eqn:?
          end);
  cbn.


(** On a history that is in teardown order and whose creates were all made
    while the session held nothing, the ledger agrees with the watch: the
    live instances are exactly the held one. *)
Lemma ledger_follows_watch (t : History) :
  forall (w w' : Watch) (l : Ledger),
    watch w t = Some w' ->
    boots_while_idle (held w) t = true ->
    live l = live_of (held w) ->
    freed l = unloaded w ->
    exists l', ledger l t = Some l'
               /\ live l' = live_of (held w') /\ freed l' = unloaded w'.
Proof.
  induction t as [|e t IH]; intros w w' l Hw Hb Hl Hf.
  - cbn in Hw. injection Hw as <-. exists l. repeat split; assumption.
  - cbn [watch] in Hw. cbn [ledger].
    destruct e; cbn [watch_event] in Hw; cbn [ledger_event]; cbn [boots_while_idle] in Hb;
      try (apply (IH w w' l Hw Hb Hl Hf)).
    + (* free *)
      destruct (is_null (held w)) eqn:Hn; [| discriminate].
      rewrite Hl. unfold live_of. rewrite Hn.
      apply (IH _ w' _ Hw); cbn; [exact Hb | unfold live_of; rewrite Hn; reflexivity | reflexivity].
    + (* create *)
      apply andb_prop in Hb. destruct Hb as [Hn Hb].
      apply (IH _ w' _ Hw); cbn; [exact Hb | | exact Hf].
      rewrite Hl. unfold live_of. rewrite Hn. reflexivity.
    + (* destroy *)
      destruct (negb (unloaded w) && negb (is_null (held w)) && (instance =? held w)) eqn:Hc;
        [| discriminate].
      apply andb_prop in Hc. destruct Hc as [Hc Hi].
      apply andb_prop in Hc. destruct Hc as [Hu Hn].
      apply negb_true_iff in Hn. apply N.eqb_eq in Hi. subst instance.
      rewrite Hl, Hf, Hu. unfold live_of at 1 2. rewrite Hn. cbn. rewrite N.eqb_refl. cbn.
      apply (IH _ w' _ Hw); cbn; [exact Hb | reflexivity | reflexivity].
Qed.

Lemma idle_boots_leave_nothing_live (t : History) :
  teardown_ordered t = true ->
  boots_while_idle nullptr t = true ->
  no_instance_outlives_module t = true.
Proof.
  unfold teardown_ordered, no_instance_outlives_module. intros Hw Hb.
  destruct (watch {| held := nullptr; unloaded := false |} t) as [w' |] eqn:Hwt;
    [| discriminate].
  destruct (ledger_follows_watch t _ w' {| live := []; freed := false |} Hwt Hb)
    as (l' & Hl & _); [reflexivity | reflexivity |].
  rewrite Hl. reflexivity.
Qed.
Section Teardown.

Variable W : World.

Ltac watch_on :=
  unfold teardown_ordered, in_step in *;
  repeat (rewrite watch_app;
          match goal with
          | H : watch _ _ = Some _ |- _ => rewrite H
          | _ => idtac
          end; cbn);
  try match goal with
      | H : watch _ _ = Some _ |- _ => rewrite H
      end;
  try reflexivity.

Lemma LoadFFILibrary_keeps_step : keeps_step (LoadFFILibrary W).
Proof.
  intros c h Hs. open_body. split_tests; watch_on; assumption.
Qed.

Lemma BootOS_keeps_step (n : string) : keeps_step (BootOS W n).
Proof.
  intros c h Hs. open_body. split_tests; watch_on; assumption.
Qed.

Lemma TickComponent_keeps_step : keeps_step (TickComponent W).
Proof.
  intros c h Hs. open_body. split_tests; watch_on; assumption.
Qed.

Lemma host_calls_keep_step (ks : list HostCall) : keeps_step (host_calls W ks).
Proof.
  induction ks as [|k ks IH]; intros c h Hs; simpl.
  - exact Hs.
  - unfold bind.
    assert (Hk : keeps_step (host_call W k)).
    { destruct k; [apply BootOS_keeps_step | apply TickComponent_keeps_step]. }
    specialize (Hk c h Hs).
    destruct (host_call W k c h) as [[] c1 h1 | f h1]; [apply IH; exact Hk | exact Hk].
Qed.

End Teardown.

Lemma EndPlay_ordered (c : UPixelOSComponent) (h : History) :
  in_step c h -> teardown_ordered (log_of (EndPlay c h)) = true.
Proof.
  intros Hs. unfold teardown_ordered, in_step in *. open_body.
  destruct (is_null (OSInstance c)) eqn:Hi; cbn.
  - destruct (is_null (FFIHandle c)) eqn:Hf; cbn.
    + rewrite Hs. reflexivity.
    + rewrite watch_app, Hs. cbn. rewrite Hi. reflexivity.
  - destruct (is_null (pixelos_destroy c)) eqn:Hd; cbn.
    + rewrite Hs. reflexivity.
    + destruct (is_null (FFIHandle c)) eqn:Hf; cbn.
      * rewrite watch_app, Hs. cbn. rewrite Hi, N.eqb_refl. reflexivity.
      * rewrite !watch_app, Hs. cbn. rewrite Hi, N.eqb_refl. reflexivity.
Qed.

Lemma play_ordered (W : World) (raw : UPixelOSComponent) (ks : list HostCall) :
  teardown_ordered (log_of (play W raw ks)) = true.
Proof.
  unfold play.
  assert (H0 : in_step (UPixelOSComponent_ctor raw) []) by reflexivity.
  pose proof (LoadFFILibrary_keeps_step W _ _ H0) as H1.
  unfold bind at 1. unfold BeginPlay.
  destruct (LoadFFILibrary W (UPixelOSComponent_ctor raw) []) as [[] c1 h1 | f h1];
    [| exact H1].
  pose proof (host_calls_keep_step W ks _ _ H1) as H2.
  unfold bind.
  destruct (host_calls W ks c1 h1) as [[] c2 h2 | f h2]; [| exact H2].
  apply EndPlay_ordered. exact H2.
Qed.

Lemma UnloadFFILibrary_live (c : UPixelOSComponent) (h : History) :
  OSInstance c <> nullptr ->
  pixelos_destroy c <> nullptr ->
  exists c',
    UnloadFFILibrary c h =
      Ret tt c'
        (h ++ EvDestroy (OSInstance c)
           :: (if is_null (FFIHandle c) then [] else [EvFreeDllHandle (FFIHandle c)]))
    /\ OSInstance c' = nullptr /\ FFIHandle c' = nullptr.
Proof.
  intros Hi Hd. apply is_null_false in Hi. apply is_null_false in Hd.
  open_body. rewrite Hi. cbn. rewrite Hd. cbn.
  destruct (is_null (FFIHandle c)) eqn:Hf; cbn.
  - eexists. split; [reflexivity |]. cbn. split; [reflexivity |].
    apply is_null_true. exact Hf.
  - eexists. rewrite <- app_assoc. split; [reflexivity |]. cbn. split; reflexivity.
Qed.

Lemma UnloadFFILibrary_unresolved_destroy (c : UPixelOSComponent) (h : History) :
  OSInstance c <> nullptr ->
  pixelos_destroy c = nullptr ->
  UnloadFFILibrary c h = Crash (NullCall "pixelos_destroy") h.
Proof.
  intros Hi Hd. apply is_null_false in Hi. apply is_null_true in Hd.
  open_body. rewrite Hi. cbn. rewrite Hd. reflexivity.
Qed.

(** ** The claims *)

(** C1, as the code has it.  In every play session (begin play, any sequence
    of boots and ticks, end play) the history of calls is in teardown order
    for the instance the session holds: a destroy is only ever made on the
    held instance and before the module is freed, and the module is only
    freed when the session holds no instance.  When, in addition, every
    create of the session was made while no instance was held, no instance
    the module ever handed out is live when the module is freed.  The
    teardown of a session that holds an instance calls destroy on that
    instance first, and frees the module after it; when the destroy entry is
    not resolved the teardown stops at that call and the module is not
    freed. *)
Theorem teardown_destroys_before_unload :
  forall (W : World),
    (forall (raw : UPixelOSComponent) (ks : list HostCall),
        teardown_ordered (log_of (play W raw ks)) = true)
    /\ (forall (raw : UPixelOSComponent) (ks : list HostCall),
          boots_while_idle nullptr (log_of (play W raw ks)) = true ->
          no_instance_outlives_module (log_of (play W raw ks)) = true)
    /\ (forall (c : UPixelOSComponent) (h : History),
          OSInstance c <> nullptr ->
          pixelos_destroy c <> nullptr ->
          exists c',
            UnloadFFILibrary c h =
              Ret tt c'
                (h ++ EvDestroy (OSInstance c)
                   :: (if is_null (FFIHandle c) then []
                       else [EvFreeDllHandle (FFIHandle c)]))
            /\ OSInstance c' = nullptr /\ FFIHandle c' = nullptr)
    /\ (forall (c : UPixelOSComponent) (h : History),
          OSInstance c <> nullptr ->
          pixelos_destroy c = nullptr ->
          UnloadFFILibrary c h = Crash (NullCall "pixelos_destroy") h).
Proof.
  intros W. split; [| split; [| split]].
  - apply play_ordered.
  - intros raw ks Hb. apply idle_boots_leave_nothing_live; [apply play_ordered | exact Hb].
  - apply UnloadFFILibrary_live.
  - apply UnloadFFILibrary_unresolved_destroy.
Qed.

(** The same at a sample input: a session with one boot and one tick, and
    the teardown of the booted sample session. *)
Lemma teardown_destroys_before_unload_witness :
  no_instance_outlives_module
    (log_of (play good_world zeroed [CallBootOS "PixelOS"; CallTick])) = true
  /\ exists c',
       UnloadFFILibrary booted boot_log =
         Ret tt c' (boot_log ++ [EvDestroy 100; EvFreeDllHandle 7])
       /\ OSInstance c' = nullptr /\ FFIHandle c' = nullptr.
Proof.
  destruct (teardown_destroys_before_unload good_world) as (_ & Hall & Hlive & _).
  split.
  - apply Hall. vm_compute. reflexivity.
  - apply (Hlive booted boot_log).
    + vm_compute. discriminate.
    + vm_compute. discriminate.
Defined.

(** C1 fails as stated.  A session of [good_world] with two boots in a row:
    create answers 100, then 101; the end of play destroys 101 and frees the
    module.  Just before the free, instance 100 is still live, so the
    history is not one in which no instance outlives the module. *)
Lemma replaced_instance_outlives_the_module :
  log_of (play good_world zeroed [CallBootOS "PixelOS"; CallBootOS "PixelOS"]) =
    load_log ++
    [ EvCreate the_config 100; EvCreateTransient 1024 768;
      EvCreate the_config 101; EvCreateTransient 1024 768;
      EvDestroy 101;
      EvFreeDllHandle 7 ]
  /\ ledger {| live := []; freed := false |}
       (load_log ++
        [ EvCreate the_config 100; EvCreateTransient 1024 768;
          EvCreate the_config 101; EvCreateTransient 1024 768;
          EvDestroy 101 ]) =
       Some {| live := [100]; freed := false |}
  /\ no_instance_outlives_module
       (log_of (play good_world zeroed [CallBootOS "PixelOS"; CallBootOS "PixelOS"])) = false.
Proof. vm_compute. repeat split. Qed.

(** The session the actor itself drives (one boot, right after the load)
    leaves no instance behind. *)
Example actor_session_leaves_nothing_live :
  no_instance_outlives_module
    (log_of ((AOSComputer_BeginPlay good_world ;; TickComponent good_world ;;
              TickComponent good_world ;; EndPlay) fresh [])) = true.
Proof. vm_compute. reflexivity. Qed.

(** What a boot does, by whether the create entry is resolved. *)
Lemma BootOS_resolved (W : World) (OSName : string) (c : UPixelOSComponent) (h : History) :
  pixelos_create c <> nullptr ->
  BootOS W OSName c h =
    Ret tt
      (set_OSDisplayTexture
         (Some {| SizeX := 1024; SizeY := 768;
                  Mip0 := fresh_bulk W (h ++ [EvCreate the_config (vm_create W h the_config)]) |})
         (set_OSInstance (vm_create W h the_config) c))
      (h ++ [EvCreate the_config (vm_create W h the_config); EvCreateTransient 1024 768]).
Proof.
  intros Hc. apply is_null_false in Hc.
  open_body. rewrite Hc. cbn. rewrite <- app_assoc. reflexivity.
Qed.

Lemma BootOS_unresolved (W : World) (OSName : string) (c : UPixelOSComponent) (h : History) :
  pixelos_create c = nullptr ->
  BootOS W OSName c h = Ret tt c h.
Proof.
  intros Hc. apply is_null_true in Hc.
  open_body. rewrite Hc. reflexivity.
Qed.

Lemma destroy_instance_live (c : UPixelOSComponent) (h : History) :
  OSInstance c <> nullptr ->
  pixelos_destroy c <> nullptr ->
  destroy_instance c h =
    Ret tt (set_OSInstance nullptr c) (h ++ [EvDestroy (OSInstance c)]).
Proof.
  intros Hi Hd. apply is_null_false in Hi. apply is_null_false in Hd.
  open_body. rewrite Hi. cbn. rewrite Hd. reflexivity.
Qed.

Lemma destroy_instance_idle (c : UPixelOSComponent) (h : History) :
  OSInstance c = nullptr ->
  destroy_instance c h = Ret tt c h.
Proof.
  intros Hi. apply is_null_true in Hi.
  open_body. rewrite Hi. reflexivity.
Qed.

Lemma destroy_instance_twice (c : UPixelOSComponent) (h : History) :
  (destroy_instance ;; destroy_instance) c h = destroy_instance c h.
Proof.
  unfold bind at 1.
  destruct (is_null (OSInstance c)) eqn:Hi.
  - rewrite (destroy_instance_idle c h) by (apply is_null_true; exact Hi).
    apply destroy_instance_idle. apply is_null_true. exact Hi.
  - destruct (is_null (pixelos_destroy c)) eqn:Hd.
    + open_body. rewrite Hi. cbn. rewrite Hd. reflexivity.
    + rewrite (destroy_instance_live c h)
        by (apply is_null_false; assumption).
      apply destroy_instance_idle. reflexivity.
Qed.

Lemma UnloadFFILibrary_twice (c : UPixelOSComponent) (h : History) :
  (UnloadFFILibrary ;; UnloadFFILibrary) c h = UnloadFFILibrary c h.
Proof.
  open_body.
  destruct (is_null (OSInstance c)) eqn:Hi; cbn.
  - destruct (is_null (FFIHandle c)) eqn:Hf; cbn.
    + rewrite Hi, Hf. reflexivity.
    + rewrite Hi. reflexivity.
  - destruct (is_null (pixelos_destroy c)) eqn:Hd; cbn.
    + reflexivity.
    + destruct (is_null (FFIHandle c)) eqn:Hf; cbn.
      * rewrite Hf. reflexivity.
      * reflexivity.
Qed.

Lemma UnloadFFILibrary_idle (c : UPixelOSComponent) (h : History) :
  OSInstance c = nullptr ->
  UnloadFFILibrary c h =
    if is_null (FFIHandle c) then Ret tt c h
    else Ret tt (set_FFIHandle nullptr c) (h ++ [EvFreeDllHandle (FFIHandle c)]).
Proof.
  intros Hi. apply is_null_true in Hi.
  open_body. rewrite Hi. cbn.
  destruct (is_null (FFIHandle c)); reflexivity.
Qed.

(** C8, as the code has it.  Shutdown is the block of [UnloadFFILibrary]
    that gives the instance back.  When the session holds an instance it
    calls the resolved destroy entry once, on that instance, and the session
    then holds none; so one boot whose create answered an instance, followed
    by shutdown, gives exactly one destroy, of that instance.  With no
    instance held (never booted, create answered null, or already shut down)
    it calls nothing and changes nothing, and running it twice is the same as
    running it once.  The whole of [UnloadFFILibrary] does the same for the
    instance and then frees the module when a module handle is held: with no
    instance and no module handle it changes nothing, with no instance and a
    module handle it only frees the module, and running it twice is the same
    as running it once. *)
Theorem shutdown_destroys_once_and_is_idempotent :
  forall (W : World) (OSName : string) (c : UPixelOSComponent) (h : History),
    (pixelos_create c <> nullptr ->
     pixelos_destroy c <> nullptr ->
     vm_create W h the_config <> nullptr ->
     exists c',
       (BootOS W OSName ;; destroy_instance) c h =
         Ret tt c'
           (h ++ [EvCreate the_config (vm_create W h the_config);
                  EvCreateTransient 1024 768;
                  EvDestroy (vm_create W h the_config)])
       /\ OSInstance c' = nullptr)
    /\ (pixelos_create c <> nullptr ->
        vm_create W h the_config = nullptr ->
        (BootOS W OSName ;; destroy_instance) c h = BootOS W OSName c h)
    /\ (OSInstance c <> nullptr ->
        pixelos_destroy c <> nullptr ->
        destroy_instance c h =
          Ret tt (set_OSInstance nullptr c) (h ++ [EvDestroy (OSInstance c)]))
    /\ (OSInstance c = nullptr -> destroy_instance c h = Ret tt c h)
    /\ (destroy_instance ;; destroy_instance) c h = destroy_instance c h
    /\ (OSInstance c <> nullptr ->
        pixelos_destroy c <> nullptr ->
        exists c',
          UnloadFFILibrary c h =
            Ret tt c'
              (h ++ EvDestroy (OSInstance c)
                 :: (if is_null (FFIHandle c) then []
                     else [EvFreeDllHandle (FFIHandle c)]))
          /\ OSInstance c' = nullptr /\ FFIHandle c' = nullptr)
    /\ (OSInstance c = nullptr ->
        FFIHandle c <> nullptr ->
        UnloadFFILibrary c h =
          Ret tt (set_FFIHandle nullptr c) (h ++ [EvFreeDllHandle (FFIHandle c)]))
    /\ (OSInstance c = nullptr ->
        FFIHandle c = nullptr ->
        UnloadFFILibrary c h = Ret tt c h)
    /\ (UnloadFFILibrary ;; UnloadFFILibrary) c h = UnloadFFILibrary c h.
Proof.
  intros W OSName c h.
  split; [| split; [| split; [| split; [| split; [| split; [| split; [| split]]]]]]].
  - intros Hc Hd Hr. unfold bind. rewrite BootOS_resolved by exact Hc.
    rewrite destroy_instance_live by (cbn; assumption).
    cbn. rewrite <- app_assoc. eexists. split; reflexivity.
  - intros Hc Hr. unfold bind. rewrite BootOS_resolved by exact Hc.
    apply destroy_instance_idle. cbn. exact Hr.
  - apply destroy_instance_live.
  - apply destroy_instance_idle.
  - apply destroy_instance_twice.
  - apply UnloadFFILibrary_live.
  - intros Hi Hf. rewrite UnloadFFILibrary_idle by exact Hi.
    apply is_null_false in Hf. rewrite Hf. reflexivity.
  - intros Hi Hf. rewrite UnloadFFILibrary_idle by exact Hi.
    apply is_null_true in Hf. rewrite Hf. reflexivity.
  - apply UnloadFFILibrary_twice.
Qed.

(** The same at a sample input: boot in the good world, shut down. *)
Lemma shutdown_destroys_once_witness :
  exists c',
    (BootOS good_world "PixelOS" ;; destroy_instance)
      (set_pixelos_destroy 12 (set_pixelos_create 11 fresh)) [] =
      Ret tt c'
        [EvCreate the_config 100; EvCreateTransient 1024 768; EvDestroy 100]
    /\ OSInstance c' = nullptr.
Proof.
  destruct (shutdown_destroys_once_and_is_idempotent good_world "PixelOS"
              (set_pixelos_destroy 12 (set_pixelos_create 11 fresh)) [])
    as (Hboot & _).
  apply Hboot; vm_compute; discriminate.
Defined.

(** C8 fails as stated.  Destroy is not called once for every boot that
    succeeded.  Two boots in a row in [good_world] both answer an instance
    (100, then 101), and the shutdown that follows calls destroy once, on
    101.  In [second_create_fails_world] the first boot answers instance 100
    and the second answers null, which the session then holds: the shutdown
    that follows calls destroy not at all. *)
Lemma destroy_is_not_once_per_boot :
  log_of ((BootOS good_world "PixelOS" ;; BootOS good_world "PixelOS" ;; destroy_instance)
            loaded load_log) =
    load_log ++
    [ EvCreate the_config 100; EvCreateTransient 1024 768;
      EvCreate the_config 101; EvCreateTransient 1024 768;
      EvDestroy 101 ]
  /\ count is_create
       (log_of ((BootOS good_world "PixelOS" ;; BootOS good_world "PixelOS" ;;
                 destroy_instance) loaded load_log)) = 2%nat
  /\ count is_destroy
       (log_of ((BootOS good_world "PixelOS" ;; BootOS good_world "PixelOS" ;;
                 destroy_instance) loaded load_log)) = 1%nat
  /\ log_of ((BootOS second_create_fails_world "PixelOS" ;;
              BootOS second_create_fails_world "PixelOS" ;; destroy_instance)
             loaded load_log) =
       load_log ++
       [ EvCreate the_config 100; EvCreateTransient 1024 768;
         EvCreate the_config 0; EvCreateTransient 1024 768 ]
  /\ count is_destroy
       (log_of (play second_create_fails_world zeroed
                  [CallBootOS "PixelOS"; CallBootOS "PixelOS"])) = 0%nat.
Proof. vm_compute. repeat split. Qed.

(** C9.  The name given to [BootOS] does not reach anything: two boots that
    differ only in the name leave the same component, make the same calls
    with the same arguments, and end the same way. *)
Theorem boot_ignores_the_name :
  forall (W : World) (name1 name2 : string) (c : UPixelOSComponent) (h : History),
    BootOS W name1 c h = BootOS W name2 c h.
Proof.
  intros W name1 name2 c h. reflexivity.
Qed.

Lemma LoadFFILibrary_mapped (W : World) (c : UPixelOSComponent) (h : History) :
  file_exists W = true ->
  dll_handle W h <> nullptr ->
  exists p1 p2 p3 p4 p5,
    LoadFFILibrary W c h =
      Ret tt
        {| OSDisplayTexture := OSDisplayTexture c;
           FFIHandle := dll_handle W h;
           OSInstance := OSInstance c;
           pixelos_create := p1; pixelos_destroy := p2; pixelos_step := p3;
           pixelos_send_key := p4; pixelos_get_framebuffer := p5 |}
        (h ++ [EvGetDllHandle (dll_handle W h);
               EvGetDllExport (dll_handle W h) "pixelos_create" p1;
               EvGetDllExport (dll_handle W h) "pixelos_destroy" p2;
               EvGetDllExport (dll_handle W h) "pixelos_step" p3;
               EvGetDllExport (dll_handle W h) "pixelos_send_key" p4;
               EvGetDllExport (dll_handle W h) "pixelos_get_framebuffer" p5])
    /\ p1 = dll_export W (h ++ [EvGetDllHandle (dll_handle W h)])
              (dll_handle W h) "pixelos_create".
Proof.
  intros He Hh. apply is_null_false in Hh.
  open_body. rewrite He. cbn. rewrite Hh. cbn.
  repeat rewrite <- app_assoc. cbn.
  do 5 eexists. split; reflexivity.
Qed.

(** C10.  With the create entry resolved, a boot returns with a display
    texture of 1024 by 768 pixels (3145728 bytes) assigned, whatever create
    answered; the instance field holds that answer, so it is null when create
    answered null.  [AOSComputer::BeginPlay], which tests the texture only,
    then creates the dynamic material, sets its "ScreenTexture" parameter and
    installs it on the mesh, also when create answered null. *)
Theorem boot_assigns_texture_whatever_create_answers :
  forall (W : World) (OSName : string) (c : UPixelOSComponent) (h : History),
    (pixelos_create c <> nullptr ->
     exists c' tex,
       BootOS W OSName c h =
         Ret tt c'
           (h ++ [EvCreate the_config (vm_create W h the_config);
                  EvCreateTransient 1024 768])
       /\ OSDisplayTexture c' = Some tex
       /\ SizeX tex = 1024 /\ SizeY tex = 768 /\ GetBulkDataSize tex = 3145728
       /\ OSInstance c' = vm_create W h the_config)
    /\ (file_exists W = true ->
        dll_handle W h <> nullptr ->
        dll_export W (h ++ [EvGetDllHandle (dll_handle W h)])
          (dll_handle W h) "pixelos_create" <> nullptr ->
        exists c' tex before answer,
          AOSComputer_BeginPlay W c h =
            Ret tt c'
              (before ++ [EvCreate the_config answer;
                          EvCreateTransient 1024 768;
                          EvMaterialCreate;
                          EvSetTextureParameterValue "ScreenTexture";
                          EvSetMaterial 0])
          /\ OSDisplayTexture c' = Some tex
          /\ OSInstance c' = answer).
Proof.
  intros W OSName c h. split.
  - intros Hc. rewrite BootOS_resolved by exact Hc.
    do 2 eexists. split; [reflexivity |]. cbn. repeat split.
  - intros He Hh Hp.
    destruct (LoadFFILibrary_mapped W c h He Hh) as (p1 & p2 & p3 & p4 & p5 & Hload & Hp1).
    unfold AOSComputer_BeginPlay, BeginPlay. unfold bind at 1. rewrite Hload.
    unfold bind at 1. rewrite BootOS_resolved by (cbn; rewrite Hp1; exact Hp).
    unfold bind, this, emit. cbn.
    rewrite <- !app_assoc. cbn.
    eexists. eexists.
    exists (h ++ [EvGetDllHandle (dll_handle W h);
                  EvGetDllExport (dll_handle W h) "pixelos_create" p1;
                  EvGetDllExport (dll_handle W h) "pixelos_destroy" p2;
                  EvGetDllExport (dll_handle W h) "pixelos_step" p3;
                  EvGetDllExport (dll_handle W h) "pixelos_send_key" p4;
                  EvGetDllExport (dll_handle W h) "pixelos_get_framebuffer" p5]).
    eexists. split; [| split].
    + rewrite <- !app_assoc. cbn. reflexivity.
    + reflexivity.
    + reflexivity.
Qed.

(** The same at a sample input: the actor begins play in a world whose create
    answers null. *)
Lemma boot_assigns_texture_witness :
  exists c' tex before answer,
    AOSComputer_BeginPlay failing_create_world fresh [] =
      Ret tt c'
        (before ++ [EvCreate the_config answer;
                    EvCreateTransient 1024 768;
                    EvMaterialCreate;
                    EvSetTextureParameterValue "ScreenTexture";
                    EvSetMaterial 0])
    /\ OSDisplayTexture c' = Some tex
    /\ OSInstance c' = answer.
Proof.
  apply (proj2 (boot_assigns_texture_whatever_create_answers
                  failing_create_world "PixelOS" fresh [])).
  - reflexivity.
  - vm_compute. discriminate.
  - vm_compute. discriminate.
Defined.

Example failed_create_still_binds_the_material :
  log_of (AOSComputer_BeginPlay failing_create_world fresh []) =
    [ EvGetDllHandle 7;
      EvGetDllExport 7 "pixelos_create" 11;
      EvGetDllExport 7 "pixelos_destroy" 12;
      EvGetDllExport 7 "pixelos_step" 13;
      EvGetDllExport 7 "pixelos_send_key" 14;
      EvGetDllExport 7 "pixelos_get_framebuffer" 15;
      EvCreate the_config 0;
      EvCreateTransient 1024 768;
      EvMaterialCreate;
      EvSetTextureParameterValue "ScreenTexture";
      EvSetMaterial 0 ]
  /\ option_map OSInstance (final (AOSComputer_BeginPlay failing_create_world fresh [])) =
       Some nullptr
  /\ option_map (fun c => option_map GetBulkDataSize (OSDisplayTexture c))
       (final (AOSComputer_BeginPlay failing_create_world fresh [])) =
       Some (Some 3145728).
Proof. vm_compute. repeat split. Qed.

(** C2, as the code has it.  When the file exists and the module maps, the
    load looks the five names up once each, stores every answer as it comes
    (null or not), keeps the module handle, frees nothing and returns
    normally.  Whether a later boot creates an instance depends on the create
    entry alone: with create unresolved the boot does nothing, with create
    resolved it creates the instance whatever the other four entries are. *)
Theorem load_keeps_a_partial_table :
  forall (W : World) (c : UPixelOSComponent) (h : History),
    file_exists W = true ->
    dll_handle W h <> nullptr ->
    exists p1 p2 p3 p4 p5 c' h',
      LoadFFILibrary W c h = Ret tt c' h'
      /\ c' = {| OSDisplayTexture := OSDisplayTexture c;
                 FFIHandle := dll_handle W h;
                 OSInstance := OSInstance c;
                 pixelos_create := p1; pixelos_destroy := p2; pixelos_step := p3;
                 pixelos_send_key := p4; pixelos_get_framebuffer := p5 |}
      /\ h' = h ++ [EvGetDllHandle (dll_handle W h);
                    EvGetDllExport (dll_handle W h) "pixelos_create" p1;
                    EvGetDllExport (dll_handle W h) "pixelos_destroy" p2;
                    EvGetDllExport (dll_handle W h) "pixelos_step" p3;
                    EvGetDllExport (dll_handle W h) "pixelos_send_key" p4;
                    EvGetDllExport (dll_handle W h) "pixelos_get_framebuffer" p5]
      /\ count is_free h' = count is_free h
      /\ (forall OSName, p1 = nullptr -> BootOS W OSName c' h' = Ret tt c' h')
      /\ (forall OSName, p1 <> nullptr ->
            option_map OSInstance (final (BootOS W OSName c' h')) =
              Some (vm_create W h' the_config)
            /\ count is_create (log_of (BootOS W OSName c' h')) =
                 S (count is_create h')).
Proof.
  intros W c h He Hh.
  destruct (LoadFFILibrary_mapped W c h He Hh) as (p1 & p2 & p3 & p4 & p5 & Hload & _).
  exists p1, p2, p3, p4, p5. do 2 eexists.
  split; [exact Hload |]. split; [reflexivity |]. split; [reflexivity |].
  split; [| split].
  - rewrite count_app. set (n := count is_free h). cbn. lia.
  - intros OSName Hp. apply BootOS_unresolved. exact Hp.
  - intros OSName Hp. rewrite BootOS_resolved by exact Hp.
    split; [reflexivity |].
    unfold log_of. rewrite count_app.
    match goal with |- (?k + _)%nat = _ => set (n := k) end.
    cbn. lia.
Qed.

Lemma load_keeps_a_partial_table_witness :
  exists p1 p2 p3 p4 p5 c' h',
    LoadFFILibrary partial_world fresh [] = Ret tt c' h'
    /\ c' = {| OSDisplayTexture := None; FFIHandle := 7; OSInstance := nullptr;
               pixelos_create := p1; pixelos_destroy := p2; pixelos_step := p3;
               pixelos_send_key := p4; pixelos_get_framebuffer := p5 |}
    /\ h' = [] ++ [EvGetDllHandle 7;
                   EvGetDllExport 7 "pixelos_create" p1;
                   EvGetDllExport 7 "pixelos_destroy" p2;
                   EvGetDllExport 7 "pixelos_step" p3;
                   EvGetDllExport 7 "pixelos_send_key" p4;
                   EvGetDllExport 7 "pixelos_get_framebuffer" p5]
    /\ count is_free h' = count is_free []
    /\ (forall OSName, p1 = nullptr -> BootOS partial_world OSName c' h' = Ret tt c' h')
    /\ (forall OSName, p1 <> nullptr ->
          option_map OSInstance (final (BootOS partial_world OSName c' h')) =
            Some (vm_create partial_world h' the_config)
          /\ count is_create (log_of (BootOS partial_world OSName c' h')) =
               S (count is_create h')).
Proof.
  apply (load_keeps_a_partial_table partial_world fresh []).
  - reflexivity.
  - vm_compute. discriminate.
Defined.

(** C2 fails as stated.  The module of [partial_world] maps and exports
    [pixelos_create] only.  The load returns normally, the component keeps
    the module handle 7, no free is made, the destroy entry is left null, and
    the boot that follows creates instance 100 from that table. *)
Lemma partial_table_is_kept_and_booted :
  returns (LoadFFILibrary partial_world fresh []) = true
  /\ option_map FFIHandle (final (LoadFFILibrary partial_world fresh [])) = Some 7
  /\ option_map pixelos_destroy (final (LoadFFILibrary partial_world fresh [])) =
       Some nullptr
  /\ count is_free (log_of (LoadFFILibrary partial_world fresh [])) = 0%nat
  /\ option_map OSInstance
       (final ((LoadFFILibrary partial_world ;; BootOS partial_world "PixelOS") fresh [])) =
       Some 100
  /\ log_of ((LoadFFILibrary partial_world ;; BootOS partial_world "PixelOS") fresh []) =
       [ EvGetDllHandle 7;
         EvGetDllExport 7 "pixelos_create" 11;
         EvGetDllExport 7 "pixelos_destroy" 0;
         EvGetDllExport 7 "pixelos_step" 0;
         EvGetDllExport 7 "pixelos_send_key" 0;
         EvGetDllExport 7 "pixelos_get_framebuffer" 0;
         EvCreate the_config 100;
         EvCreateTransient 1024 768 ].
Proof. vm_compute. repeat split. Qed.

(** C3, as the code has it.  The session has one instance field.  A boot
    made while it holds an instance is not refused: with create resolved, it
    calls create again with the fixed config and returns normally, and the
    field then holds the answer of this latest call. *)
Theorem second_boot_creates_again :
  forall (W : World) (OSName : string) (c : UPixelOSComponent) (h : History),
    OSInstance c <> nullptr ->
    pixelos_create c <> nullptr ->
    exists c',
      BootOS W OSName c h =
        Ret tt c'
          (h ++ [EvCreate the_config (vm_create W h the_config);
                 EvCreateTransient 1024 768])
      /\ OSInstance c' = vm_create W h the_config.
Proof.
  intros W OSName c h _ Hc. rewrite BootOS_resolved by exact Hc.
  eexists. split; reflexivity.
Qed.

Lemma second_boot_creates_again_witness :
  exists c',
    BootOS good_world "PixelOS" booted boot_log =
      Ret tt c'
        (boot_log ++ [EvCreate the_config (vm_create good_world boot_log the_config);
                      EvCreateTransient 1024 768])
    /\ OSInstance c' = vm_create good_world boot_log the_config.
Proof.
  apply (second_boot_creates_again good_world "PixelOS" booted boot_log).
  - vm_compute. discriminate.
  - vm_compute. discriminate.
Defined.

(** C3 fails as stated.  Two boots in a row in [good_world]: the second one
    returns normally, create is called twice, the session ends up holding
    instance 101 in place of instance 100, and the end of play destroys 101
    only. *)
Lemma second_boot_is_not_rejected :
  returns ((BootOS good_world "PixelOS" ;; BootOS good_world "PixelOS") loaded load_log) = true
  /\ option_map OSInstance (final (BootOS good_world "PixelOS" loaded load_log)) = Some 100
  /\ option_map OSInstance
       (final ((BootOS good_world "PixelOS" ;; BootOS good_world "PixelOS") loaded load_log)) =
       Some 101
  /\ log_of (play good_world zeroed [CallBootOS "PixelOS"; CallBootOS "PixelOS"]) =
       load_log ++
       [ EvCreate the_config 100; EvCreateTransient 1024 768;
         EvCreate the_config 101; EvCreateTransient 1024 768;
         EvDestroy 101;
         EvFreeDllHandle 7 ].
Proof. vm_compute. repeat split. Qed.

(** C4, as the code has it.  A boot takes no config from its caller.  With
    create resolved it calls create once, with the fixed config 1024 by 768
    (both positive), and stores the answer; with create unresolved it does
    nothing.  Either way it returns normally: when create answers null the
    session is left holding no instance and nothing is reported. *)
Theorem boot_uses_the_fixed_config :
  forall (W : World) (OSName : string) (c : UPixelOSComponent) (h : History),
    returns (BootOS W OSName c h) = true
    /\ 0 < width the_config /\ 0 < height the_config
    /\ (pixelos_create c = nullptr -> BootOS W OSName c h = Ret tt c h)
    /\ (pixelos_create c <> nullptr ->
        log_of (BootOS W OSName c h) =
          h ++ [EvCreate the_config (vm_create W h the_config);
                EvCreateTransient 1024 768]
        /\ option_map OSInstance (final (BootOS W OSName c h)) =
             Some (vm_create W h the_config)).
Proof.
  intros W OSName c h.
  split; [| split; [reflexivity | split; [reflexivity | split]]].
  - destruct (is_null (pixelos_create c)) eqn:Hc.
    + rewrite BootOS_unresolved by (apply is_null_true; exact Hc). reflexivity.
    + rewrite BootOS_resolved by (apply is_null_false; exact Hc). reflexivity.
  - apply BootOS_unresolved.
  - intros Hc. rewrite BootOS_resolved by exact Hc. split; reflexivity.
Qed.

Lemma boot_uses_the_fixed_config_witness :
  log_of (BootOS failing_create_world "PixelOS" loaded load_log) =
    load_log ++ [EvCreate the_config (vm_create failing_create_world load_log the_config);
                 EvCreateTransient 1024 768]
  /\ option_map OSInstance (final (BootOS failing_create_world "PixelOS" loaded load_log)) =
       Some (vm_create failing_create_world load_log the_config).
Proof.
  apply (proj2 (proj2 (proj2 (proj2
           (boot_uses_the_fixed_config failing_create_world "PixelOS" loaded load_log))))).
  vm_compute. discriminate.
Defined.

(** C4 fails as stated.  In [failing_create_world] create answers null.  The
    boot returns normally all the same, exactly as the boot of [good_world]
    does, with the instance null and a texture of 3145728 bytes assigned. *)
Lemma failed_create_is_not_reported :
  vm_create failing_create_world load_log the_config = nullptr
  /\ returns (BootOS failing_create_world "PixelOS" loaded load_log) = true
  /\ returns (BootOS failing_create_world "PixelOS" loaded load_log) =
       returns (BootOS good_world "PixelOS" loaded load_log)
  /\ option_map OSInstance (final (BootOS failing_create_world "PixelOS" loaded load_log)) =
       Some nullptr
  /\ option_map (fun c => option_map GetBulkDataSize (OSDisplayTexture c))
       (final (BootOS failing_create_world "PixelOS" loaded load_log)) = Some (Some 3145728).
Proof. vm_compute. repeat split. Qed.

(** A tick of a session that holds an instance and a texture, when the
    module hands back a framebuffer at least as long as the texture. *)
Lemma TickComponent_copies (W : World) (c : UPixelOSComponent) (h : History)
    (tex : UTexture2D) (src : FrameBuffer) :
  OSInstance c <> nullptr ->
  OSDisplayTexture c = Some tex ->
  pixelos_step c <> nullptr ->
  pixelos_get_framebuffer c <> nullptr ->
  vm_get_framebuffer W (h ++ [EvStep (OSInstance c)]) (OSInstance c) = Some src ->
  GetBulkDataSize tex <= fb_len src ->
  TickComponent W c h =
    Ret tt
      (set_OSDisplayTexture
         (Some {| SizeX := SizeX tex; SizeY := SizeY tex;
                  Mip0 := fun i => if i <? GetBulkDataSize tex
                                   then fb_byte src i else Mip0 tex i |}) c)
      (h ++ [EvStep (OSInstance c);
             EvGetFramebuffer (OSInstance c) false;
             EvLock;
             EvMemcpy (GetBulkDataSize tex);
             EvUnlock;
             EvUpdateResource]).
Proof.
  intros Hi Ht Hs Hg Hfb Hlen.
  apply is_null_false in Hi. apply is_null_false in Hs. apply is_null_false in Hg.
  apply N.leb_le in Hlen.
  open_body. rewrite Hi. cbn. rewrite Hs. cbn. rewrite Hi, Ht. cbn.
  rewrite Hg. cbn. rewrite Hfb. cbn. rewrite Hlen. cbn.
  repeat rewrite <- app_assoc. reflexivity.
Qed.

Lemma TickComponent_no_frame (W : World) (c : UPixelOSComponent) (h : History)
    (tex : UTexture2D) :
  OSInstance c <> nullptr ->
  OSDisplayTexture c = Some tex ->
  pixelos_step c <> nullptr ->
  pixelos_get_framebuffer c <> nullptr ->
  vm_get_framebuffer W (h ++ [EvStep (OSInstance c)]) (OSInstance c) = None ->
  TickComponent W c h =
    Ret tt c (h ++ [EvStep (OSInstance c); EvGetFramebuffer (OSInstance c) true]).
Proof.
  intros Hi Ht Hs Hg Hfb.
  apply is_null_false in Hi. apply is_null_false in Hs. apply is_null_false in Hg.
  open_body. rewrite Hi. cbn. rewrite Hs. cbn. rewrite Hi, Ht. cbn.
  rewrite Hg. cbn. rewrite Hfb. cbn.
  repeat rewrite <- app_assoc. reflexivity.
Qed.

Lemma TickComponent_idle (W : World) (c : UPixelOSComponent) (h : History) :
  OSInstance c = nullptr ->
  TickComponent W c h = Ret tt c h.
Proof.
  intros Hi. apply is_null_true in Hi.
  open_body. rewrite Hi. reflexivity.
Qed.

Lemma TickComponent_reads_past (W : World) (c : UPixelOSComponent) (h : History)
    (tex : UTexture2D) (src : FrameBuffer) :
  OSInstance c <> nullptr ->
  OSDisplayTexture c = Some tex ->
  pixelos_step c <> nullptr ->
  pixelos_get_framebuffer c <> nullptr ->
  vm_get_framebuffer W (h ++ [EvStep (OSInstance c)]) (OSInstance c) = Some src ->
  fb_len src < GetBulkDataSize tex ->
  TickComponent W c h =
    Crash (ReadPastEnd (GetBulkDataSize tex) (fb_len src))
      (h ++ [EvStep (OSInstance c);
             EvGetFramebuffer (OSInstance c) false;
             EvLock]).
Proof.
  intros Hi Ht Hs Hg Hfb Hlen.
  apply is_null_false in Hi. apply is_null_false in Hs. apply is_null_false in Hg.
  apply N.leb_gt in Hlen.
  open_body. rewrite Hi. cbn. rewrite Hs. cbn. rewrite Hi, Ht. cbn.
  rewrite Hg. cbn. rewrite Hfb. cbn. rewrite Hlen. cbn.
  repeat rewrite <- app_assoc. reflexivity.
Qed.

(** C5, as the code has it.  The framebuffer comes back as a bare pointer,
    and the tick compares no length and reports no size mismatch.  Whenever
    the pointer is not null it locks the texture and asks for a copy of as
    many bytes as the texture has, width * height * 4, from the start of the
    buffer.  When the buffer has at least that many bytes, every offset of
    the texture afterwards holds the byte of the buffer at that offset (a
    longer buffer is copied truncated) and the tick returns normally.  When
    the buffer has fewer bytes, the copy reads past its end: the tick stops
    in that fault, after the lock, and does not return. *)
Theorem tick_copies_the_texture_size :
  forall (W : World) (c : UPixelOSComponent) (h : History)
         (tex : UTexture2D) (src : FrameBuffer),
    OSInstance c <> nullptr ->
    OSDisplayTexture c = Some tex ->
    pixelos_step c <> nullptr ->
    pixelos_get_framebuffer c <> nullptr ->
    vm_get_framebuffer W (h ++ [EvStep (OSInstance c)]) (OSInstance c) = Some src ->
    (SizeX tex * SizeY tex * 4 <= fb_len src ->
     exists c' tex',
       TickComponent W c h =
         Ret tt c'
           (h ++ [EvStep (OSInstance c);
                  EvGetFramebuffer (OSInstance c) false;
                  EvLock;
                  EvMemcpy (SizeX tex * SizeY tex * 4);
                  EvUnlock;
                  EvUpdateResource])
       /\ OSDisplayTexture c' = Some tex'
       /\ SizeX tex' = SizeX tex /\ SizeY tex' = SizeY tex
       /\ (forall i, i < SizeX tex * SizeY tex * 4 -> Mip0 tex' i = fb_byte src i)
       /\ (forall i, SizeX tex * SizeY tex * 4 <= i -> Mip0 tex' i = Mip0 tex i)
       /\ OSInstance c' = OSInstance c)
    /\ (fb_len src < SizeX tex * SizeY tex * 4 ->
        TickComponent W c h =
          Crash (ReadPastEnd (SizeX tex * SizeY tex * 4) (fb_len src))
            (h ++ [EvStep (OSInstance c);
                   EvGetFramebuffer (OSInstance c) false;
                   EvLock])).
Proof.
  intros W c h tex src Hi Ht Hs Hg Hfb. split.
  - intros Hlen.
    rewrite (TickComponent_copies W c h tex src Hi Ht Hs Hg Hfb Hlen).
    do 2 eexists. split; [reflexivity |].
    unfold set_OSDisplayTexture, GetBulkDataSize.
    cbn [OSDisplayTexture OSInstance SizeX SizeY Mip0].
    split; [reflexivity |].
    split; [reflexivity |]. split; [reflexivity |]. split; [| split].
    + intros i Hlt. apply N.ltb_lt in Hlt.
      unfold GetBulkDataSize. cbn [Mip0]. rewrite Hlt. reflexivity.
    + intros i Hge. apply N.ltb_ge in Hge.
      unfold GetBulkDataSize. cbn [Mip0]. rewrite Hge. reflexivity.
    + reflexivity.
  - intros Hlen.
    apply (TickComponent_reads_past W c h tex src Hi Ht Hs Hg Hfb Hlen).
Qed.

Lemma tick_copies_the_texture_size_witness :
  (exists c' tex',
     TickComponent long_frame_world booted boot_log =
       Ret tt c'
         (boot_log ++ [EvStep 100;
                       EvGetFramebuffer 100 false;
                       EvLock;
                       EvMemcpy (1024 * 768 * 4);
                       EvUnlock;
                       EvUpdateResource])
     /\ OSDisplayTexture c' = Some tex'
     /\ SizeX tex' = 1024 /\ SizeY tex' = 768
     /\ (forall i, i < 1024 * 768 * 4 -> Mip0 tex' i = Byte.xff)
     /\ (forall i, 1024 * 768 * 4 <= i -> Mip0 tex' i = Byte.x00)
     /\ OSInstance c' = 100)
  /\ TickComponent short_frame_world booted boot_log =
       Crash (ReadPastEnd (1024 * 768 * 4) 16)
         (boot_log ++ [EvStep 100; EvGetFramebuffer 100 false; EvLock]).
Proof.
  split.
  - apply (proj1 (tick_copies_the_texture_size long_frame_world booted boot_log
                    black_texture (white 3145732)
                    ltac:(vm_compute; discriminate) eq_refl
                    ltac:(vm_compute; discriminate) ltac:(vm_compute; discriminate)
                    eq_refl)).
    vm_compute. discriminate.
  - apply (proj2 (tick_copies_the_texture_size short_frame_world booted boot_log
                    black_texture (white 16)
                    ltac:(vm_compute; discriminate) eq_refl
                    ltac:(vm_compute; discriminate) ltac:(vm_compute; discriminate)
                    eq_refl)).
    vm_compute. reflexivity.
Defined.

(** C5 fails as stated.  In [long_frame_world] the module's buffer has
    3145732 bytes and the texture 3145728.  The tick returns normally, copies
    3145728 bytes, and the texture, black before, is white at its first and
    at its last offset. *)
Lemma mismatched_frame_is_copied :
  option_map fb_len (vm_get_framebuffer long_frame_world (boot_log ++ [EvStep 100]) 100) =
    Some 3145732
  /\ option_map GetBulkDataSize (OSDisplayTexture booted) = Some 3145728
  /\ returns (TickComponent long_frame_world booted boot_log) = true
  /\ log_of (TickComponent long_frame_world booted boot_log) =
       boot_log ++ [EvStep 100; EvGetFramebuffer 100 false;
                    EvLock; EvMemcpy 3145728; EvUnlock; EvUpdateResource]
  /\ surface_byte (Ret tt booted boot_log) 0 = Some Byte.x00
  /\ surface_byte (TickComponent long_frame_world booted boot_log) 0 = Some Byte.xff
  /\ surface_byte (TickComponent long_frame_world booted boot_log) 3145727 = Some Byte.xff.
Proof. vm_compute. repeat split. Qed.

(** C6, as the code has it.  When the framebuffer request answers null, the
    tick has stepped the machine, copies nothing, leaves the component (and
    with it every byte of the texture) as it was, and returns normally. *)
Theorem tick_without_frame_leaves_the_surface :
  forall (W : World) (c : UPixelOSComponent) (h : History) (tex : UTexture2D),
    OSInstance c <> nullptr ->
    OSDisplayTexture c = Some tex ->
    pixelos_step c <> nullptr ->
    pixelos_get_framebuffer c <> nullptr ->
    vm_get_framebuffer W (h ++ [EvStep (OSInstance c)]) (OSInstance c) = None ->
    TickComponent W c h =
      Ret tt c (h ++ [EvStep (OSInstance c); EvGetFramebuffer (OSInstance c) true]).
Proof.
  intros W c h tex. apply TickComponent_no_frame.
Qed.

Lemma tick_without_frame_witness :
  TickComponent no_frame_world booted boot_log =
    Ret tt booted (boot_log ++ [EvStep 100; EvGetFramebuffer 100 true]).
Proof.
  apply (tick_without_frame_leaves_the_surface no_frame_world booted boot_log black_texture).
  - vm_compute. discriminate.
  - reflexivity.
  - vm_compute. discriminate.
  - vm_compute. discriminate.
  - reflexivity.
Defined.

(** C6 fails as stated.  In [no_frame_world] the framebuffer request answers
    null; the tick of the booted session returns normally, as the tick of
    [good_world] that copies a frame does. *)
Lemma missing_frame_is_not_reported :
  vm_get_framebuffer no_frame_world (boot_log ++ [EvStep 100]) 100 = None
  /\ returns (TickComponent no_frame_world booted boot_log) = true
  /\ returns (TickComponent no_frame_world booted boot_log) =
       returns (TickComponent good_world booted boot_log).
Proof. vm_compute. repeat split. Qed.

Lemma count_snoc_other (kind : Event -> bool) (h : History) (e : Event) :
  kind e = false -> count kind (h ++ [e]) = count kind h.
Proof.
  intros He. rewrite count_app. unfold count at 2. cbn. rewrite He. cbn. lia.
Qed.

Lemma sends_no_key_seq (m1 m2 : M unit) :
  sends_no_key m1 -> sends_no_key m2 -> sends_no_key (m1 ;; m2).
Proof.
  intros H1 H2 c h. unfold bind. specialize (H1 c h).
  destruct (m1 c h) as [[] c1 h1 | f h1]; cbn in H1.
  - rewrite H2. exact H1.
  - exact H1.
Qed.

Ltac no_key_in_body :=
  intros c h; open_body; split_tests; unfold log_of;
  repeat match goal with
         | |- context [List.length (filter ?k ?l)] =>
             change (List.length (filter k l)) with (count k l)
         end;
  repeat (rewrite count_snoc_other by reflexivity);
  reflexivity.

Lemma LoadFFILibrary_sends_no_key (W : World) : sends_no_key (LoadFFILibrary W).
Proof. no_key_in_body. Qed.

Lemma UnloadFFILibrary_sends_no_key : sends_no_key UnloadFFILibrary.
Proof. no_key_in_body. Qed.

Lemma BootOS_sends_no_key (W : World) (OSName : string) : sends_no_key (BootOS W OSName).
Proof. no_key_in_body. Qed.

Lemma TickComponent_sends_no_key (W : World) : sends_no_key (TickComponent W).
Proof. no_key_in_body. Qed.

Lemma AOSComputer_BeginPlay_sends_no_key (W : World) : sends_no_key (AOSComputer_BeginPlay W).
Proof. no_key_in_body. Qed.

Lemma host_calls_send_no_key (W : World) (ks : list HostCall) :
  sends_no_key (host_calls W ks).
Proof.
  induction ks as [|k ks IH]; simpl.
  - intros c h. reflexivity.
  - apply sends_no_key_seq; [| exact IH].
    destruct k; [apply BootOS_sends_no_key | apply TickComponent_sends_no_key].
Qed.

(** C7, as the code has it.  A tick of a session that holds no instance calls
    nothing (no step, no framebuffer request), changes nothing and returns
    normally: it is a silent no-op.  The component has no key operation at
    all: no play session, whatever the host calls, and no begin of play of
    the actor ever calls the send-key entry. *)
Theorem tick_without_instance_is_a_silent_no_op :
  forall (W : World),
    (forall (c : UPixelOSComponent) (h : History),
        OSInstance c = nullptr -> TickComponent W c h = Ret tt c h)
    /\ (forall (raw : UPixelOSComponent) (ks : list HostCall),
          count is_send_key (log_of (play W raw ks)) = 0%nat)
    /\ (forall (c : UPixelOSComponent) (h : History),
          count is_send_key (log_of (AOSComputer_BeginPlay W c h)) = count is_send_key h).
Proof.
  intros W. split; [| split].
  - apply TickComponent_idle.
  - intros raw ks. unfold play.
    assert (H : sends_no_key (BeginPlay W ;; host_calls W ks ;; EndPlay)).
    { apply sends_no_key_seq; [apply LoadFFILibrary_sends_no_key |].
      apply sends_no_key_seq; [apply host_calls_send_no_key |].
      apply UnloadFFILibrary_sends_no_key. }
    rewrite H. reflexivity.
  - apply AOSComputer_BeginPlay_sends_no_key.
Qed.

Lemma tick_without_instance_witness :
  TickComponent good_world loaded load_log = Ret tt loaded load_log.
Proof.
  apply (proj1 (tick_without_instance_is_a_silent_no_op good_world) loaded load_log).
  reflexivity.
Defined.

(** C7 fails as stated.  After the load and before any boot, a tick returns
    normally with the component and the history exactly as they were: the
    request is swallowed, nothing tells the caller that no session is
    active. *)
Lemma tick_before_boot_is_swallowed :
  OSInstance loaded = nullptr
  /\ TickComponent good_world loaded load_log = Ret tt loaded load_log
  /\ returns (TickComponent good_world loaded load_log) = true
  /\ (BeginPlay good_world ;; TickComponent good_world) fresh [] =
       BeginPlay good_world fresh [].
Proof. vm_compute. repeat split. Qed.

(** A buffer shorter than the texture is read past its end. *)
Example short_frame_is_read_past_its_end :
  TickComponent (sample_world all_exports 100 (Some (white 16))) booted boot_log =
    Crash (ReadPastEnd 3145728 16)
      (boot_log ++ [EvStep 100; EvGetFramebuffer 100 false; EvLock]).
Proof. vm_compute. reflexivity. Qed.

(** ** Further properties of the component *)

Lemma LoadFFILibrary_frame (W : World) (c : UPixelOSComponent) (h : History) :
  exists c' h',
    LoadFFILibrary W c h = Ret tt c' h'
    /\ OSDisplayTexture c' = OSDisplayTexture c
    /\ OSInstance c' = OSInstance c.
Proof.
  open_body. split_tests; do 2 eexists; (split; [reflexivity | split; reflexivity]).
Qed.

Lemma host_calls_idle (W : World) (ks : list HostCall) (c : UPixelOSComponent) (h : History) :
  OSInstance c = nullptr ->
  pixelos_create c = nullptr ->
  host_calls W ks c h = Ret tt c h.
Proof.
  intros Hi Hc. induction ks as [|k ks IH]; simpl.
  - reflexivity.
  - unfold bind. destruct k; simpl.
    + rewrite BootOS_unresolved by exact Hc. exact IH.
    + rewrite TickComponent_idle by exact Hi. exact IH.
Qed.

(** X1.  Without the module (the file is missing, or it does not map) and
    with no create pointer in the storage, a whole play session returns
    normally whatever the host calls and however often: nothing is created,
    stepped, destroyed or freed, the only call made is the attempt to map,
    and the component ends as the constructor left it. *)
Theorem play_without_module_is_inert :
  forall (W : World) (raw : UPixelOSComponent) (ks : list HostCall),
    pixelos_create raw = nullptr ->
    file_exists W = false \/ dll_handle W [] = nullptr ->
    play W raw ks =
      Ret tt (UPixelOSComponent_ctor raw)
        (if file_exists W then [EvGetDllHandle nullptr] else []).
Proof.
  intros W raw ks Hc Hw. unfold play, BeginPlay, EndPlay.
  assert (Hload : LoadFFILibrary W (UPixelOSComponent_ctor raw) [] =
                  Ret tt (UPixelOSComponent_ctor raw)
                    (if file_exists W then [EvGetDllHandle nullptr] else [])).
  { open_body. destruct (file_exists W) eqn:He.
    - destruct Hw as [Hw | Hw]; [discriminate |]. cbn. rewrite Hw. reflexivity.
    - reflexivity. }
  unfold bind at 1. rewrite Hload.
  unfold bind. rewrite host_calls_idle by (cbn; first [reflexivity | exact Hc]).
  reflexivity.
Qed.

Lemma play_without_module_witness :
  play no_map_world zeroed [CallBootOS "PixelOS"; CallTick; CallBootOS "Other"; CallTick] =
    Ret tt fresh [EvGetDllHandle nullptr].
Proof.
  apply (play_without_module_is_inert no_map_world zeroed
           [CallBootOS "PixelOS"; CallTick; CallBootOS "Other"; CallTick]).
  - reflexivity.
  - right. reflexivity.
Defined.

(** X2.  When the load leaves the create pointer null (no file, no map, or
    no such symbol) on a component without a texture, the begin of play of
    the actor does nothing beyond that load: no create, no texture, no
    material is made or installed on the mesh. *)
Theorem actor_without_create_binds_nothing :
  forall (W : World) (c : UPixelOSComponent) (h : History),
    OSDisplayTexture c = None ->
    option_map pixelos_create (final (LoadFFILibrary W c h)) = Some nullptr ->
    AOSComputer_BeginPlay W c h = LoadFFILibrary W c h.
Proof.
  intros W c h Ht Hc.
  destruct (LoadFFILibrary_frame W c h) as (c1 & h1 & Hload & Htex & _).
  rewrite Hload in Hc. cbn in Hc. injection Hc as Hc.
  unfold AOSComputer_BeginPlay, BeginPlay. unfold bind at 1. rewrite Hload.
  unfold bind at 1. rewrite BootOS_unresolved by exact Hc.
  unfold bind, this. rewrite Htex, Ht. reflexivity.
Qed.

Lemma actor_without_create_witness :
  AOSComputer_BeginPlay (sample_world (fun _ => nullptr) 100 None) fresh [] =
  LoadFFILibrary (sample_world (fun _ => nullptr) 100 None) fresh [].
Proof.
  apply (actor_without_create_binds_nothing (sample_world (fun _ => nullptr) 100 None) fresh []).
  - reflexivity.
  - reflexivity.
Defined.

Lemma session_app (w : Watch) (a b : History) :
  session w (a ++ b) =
  match session w a with
  | Some w' => session w' b
  | None => None
  end.
Proof.
  revert w. induction a as [|e a IH]; intros w; simpl.
  - reflexivity.
  - destruct (session_event w e); [apply IH | reflexivity].
Qed.

Ltac session_on :=
  unfold module_calls_ok, in_session in *;
  repeat rewrite session_app;
  match goal with H : session _ _ = Some _ |- _ => rewrite H end;
  repeat (cbn;
          repeat match goal with
                 | H : is_null _ = _ |- _ => rewrite H
                 | |- context [?x =? ?x] => rewrite N.eqb_refl
                 end);
  try reflexivity.

Lemma LoadFFILibrary_keeps_session (W : World) : keeps_session (LoadFFILibrary W).
Proof. intros c h Hs. open_body. split_tests; session_on. Qed.

Lemma BootOS_keeps_session (W : World) (n : string) : keeps_session (BootOS W n).
Proof. intros c h Hs. open_body. split_tests; session_on. Qed.

Lemma TickComponent_keeps_session (W : World) : keeps_session (TickComponent W).
Proof. intros c h Hs. open_body. split_tests; try discriminate; session_on. Qed.

Lemma host_calls_keep_session (W : World) (ks : list HostCall) :
  keeps_session (host_calls W ks).
Proof.
  induction ks as [|k ks IH]; intros c h Hs; simpl.
  - exact Hs.
  - unfold bind.
    assert (Hk : keeps_session (host_call W k)).
    { destruct k; [apply BootOS_keeps_session | apply TickComponent_keeps_session]. }
    specialize (Hk c h Hs).
    destruct (host_call W k c h) as [[] c1 h1 | f h1]; [apply IH; exact Hk | exact Hk].
Qed.

Lemma EndPlay_ends_session (c : UPixelOSComponent) (h : History) :
  in_session c h -> module_calls_ok (log_of (EndPlay c h)) = true.
Proof. intros Hs. open_body. split_tests; session_on. Qed.

(** X3.  In every play session, every call into the module is in order: a
    create is made before the module is freed; a step, a framebuffer request
    and a destroy name the instance the session holds, which is not null and
    has not been destroyed, and are made before the free; the module is freed
    at most once, and only after the held instance was destroyed. *)
Theorem play_calls_the_module_in_order :
  forall (W : World) (raw : UPixelOSComponent) (ks : list HostCall),
    module_calls_ok (log_of (play W raw ks)) = true.
Proof.
  intros W raw ks. unfold play.
  assert (H0 : in_session (UPixelOSComponent_ctor raw) []) by reflexivity.
  pose proof (LoadFFILibrary_keeps_session W _ _ H0) as H1.
  unfold bind at 1. unfold BeginPlay.
  destruct (LoadFFILibrary W (UPixelOSComponent_ctor raw) []) as [[] c1 h1 | f h1];
    [| exact H1].
  pose proof (host_calls_keep_session W ks _ _ H1) as H2.
  unfold bind.
  destruct (host_calls W ks c1 h1) as [[] c2 h2 | f h2]; [| exact H2].
  apply EndPlay_ends_session. exact H2.
Qed.

(** X4.  The teardown clears the instance and the module handle and nothing
    else: the five entry pointers and the texture stay as they were, and when
    a module handle was held the free of the module is the last call made.
    A create pointer that was resolved is therefore still not null after the
    teardown, although the module it pointed into has been freed: the test
    that [BootOS] makes on it still succeeds. *)
Theorem unload_keeps_the_entry_pointers :
  forall (c c1 : UPixelOSComponent) (h h1 : History),
    UnloadFFILibrary c h = Ret tt c1 h1 ->
    (OSInstance c1 = nullptr /\ FFIHandle c1 = nullptr
     /\ OSDisplayTexture c1 = OSDisplayTexture c
     /\ pixelos_create c1 = pixelos_create c
     /\ pixelos_destroy c1 = pixelos_destroy c
     /\ pixelos_step c1 = pixelos_step c
     /\ pixelos_send_key c1 = pixelos_send_key c
     /\ pixelos_get_framebuffer c1 = pixelos_get_framebuffer c)
    /\ (FFIHandle c <> nullptr ->
        exists before, h1 = before ++ [EvFreeDllHandle (FFIHandle c)])
    /\ (pixelos_create c <> nullptr -> is_null (pixelos_create c1) = false).
Proof.
  intros c c1 h h1 Hu.
  assert (Hfields :
            OSInstance c1 = nullptr /\ FFIHandle c1 = nullptr
            /\ OSDisplayTexture c1 = OSDisplayTexture c
            /\ pixelos_create c1 = pixelos_create c
            /\ pixelos_destroy c1 = pixelos_destroy c
            /\ pixelos_step c1 = pixelos_step c
            /\ pixelos_send_key c1 = pixelos_send_key c
            /\ pixelos_get_framebuffer c1 = pixelos_get_framebuffer c).
  { revert Hu. open_body. split_tests; intros Hu; try discriminate;
      injection Hu as <- <-; cbn;
      repeat split; first [reflexivity | apply is_null_true; assumption]. }
  split; [exact Hfields | split].
  - intros Hf. apply is_null_false in Hf.
    revert Hu. open_body. split_tests; intros Hu; try discriminate; try congruence;
      injection Hu as <- <-; eexists; reflexivity.
  - intros Hc. destruct Hfields as (_ & _ & _ & Hcreate & _).
    rewrite Hcreate. apply is_null_false. exact Hc.
Qed.

Lemma unload_keeps_the_entry_pointers_witness :
  (OSInstance (set_FFIHandle nullptr (set_OSInstance nullptr booted)) = nullptr
   /\ FFIHandle (set_FFIHandle nullptr (set_OSInstance nullptr booted)) = nullptr
   /\ OSDisplayTexture (set_FFIHandle nullptr (set_OSInstance nullptr booted)) =
        OSDisplayTexture booted
   /\ pixelos_create (set_FFIHandle nullptr (set_OSInstance nullptr booted)) = 11
   /\ pixelos_destroy (set_FFIHandle nullptr (set_OSInstance nullptr booted)) = 12
   /\ pixelos_step (set_FFIHandle nullptr (set_OSInstance nullptr booted)) = 13
   /\ pixelos_send_key (set_FFIHandle nullptr (set_OSInstance nullptr booted)) = 14
   /\ pixelos_get_framebuffer (set_FFIHandle nullptr (set_OSInstance nullptr booted)) = 15)
  /\ exists before,
       boot_log ++ [EvDestroy 100; EvFreeDllHandle 7] = before ++ [EvFreeDllHandle 7].
Proof.
  destruct (unload_keeps_the_entry_pointers booted
              (set_FFIHandle nullptr (set_OSInstance nullptr booted))
              boot_log (boot_log ++ [EvDestroy 100; EvFreeDllHandle 7]) eq_refl)
    as (Hfields & Hfree & _).
  split.
  - exact Hfields.
  - apply Hfree. vm_compute. discriminate.
Defined.










Lemma keeps_sizes_seq (m1 m2 : M unit) :
  keeps_sizes m1 -> keeps_sizes m2 -> keeps_sizes (m1 ;; m2).
Proof.
  intros H1 H2 c h Ht Hh. unfold bind. specialize (H1 c h Ht Hh).
  destruct (m1 c h) as [[] c1 h1 | f h1]; cbn in H1.
  - destruct H1 as [Hh1 Ht1]. apply H2; assumption.
  - exact H1.
Qed.

Ltac sizes_in_body :=
  intros c h Ht Hh; open_body; split_tests; try discriminate;
  (split;
   [ unfold log_of; repeat rewrite forallb_app; rewrite ?Hh; cbn;
     repeat match goal with
            | H : OSDisplayTexture _ = Some ?t |- context [GetBulkDataSize ?t] =>
                rewrite (Ht t H)
            end;
     reflexivity
   | cbn; try exact I; try exact Ht;
     try (intros t Heq; cbn in Heq; injection Heq as <-;
          first [ reflexivity
                | match goal with
                  | H : OSDisplayTexture _ = Some ?t0 |- _ => exact (Ht t0 H)
                  end ]) ]).

Lemma LoadFFILibrary_keeps_sizes (W : World) : keeps_sizes (LoadFFILibrary W).
Proof. sizes_in_body. Qed.

Lemma UnloadFFILibrary_keeps_sizes : keeps_sizes UnloadFFILibrary.
Proof. sizes_in_body. Qed.

Lemma BootOS_keeps_sizes (W : World) (n : string) : keeps_sizes (BootOS W n).
Proof. sizes_in_body. Qed.

Lemma TickComponent_keeps_sizes (W : World) : keeps_sizes (TickComponent W).
Proof. sizes_in_body. Qed.

Lemma host_calls_keep_sizes (W : World) (ks : list HostCall) :
  keeps_sizes (host_calls W ks).
Proof.
  induction ks as [|k ks IH]; simpl.
  - intros c h Ht Hh. split; assumption.
  - apply keeps_sizes_seq; [| exact IH].
    destruct k; [apply BootOS_keeps_sizes | apply TickComponent_keeps_sizes].
Qed.

(** X6.  In every play session the component passes the same sizes across
    the boundary: every create is given the config 1024 by 768, every texture
    is created 1024 by 768, and every copy into the texture is of 3145728
    bytes, whatever the storage held before and whatever the module
    answers. *)
Theorem play_passes_the_fixed_sizes :
  forall (W : World) (raw : UPixelOSComponent) (ks : list HostCall),
    forallb fixed_sizes (log_of (play W raw ks)) = true.
Proof.
  intros W raw ks. unfold play.
  assert (H : keeps_sizes (BeginPlay W ;; host_calls W ks ;; EndPlay)).
  { apply keeps_sizes_seq; [apply LoadFFILibrary_keeps_sizes |].
    apply keeps_sizes_seq; [apply host_calls_keep_sizes |].
    apply UnloadFFILibrary_keeps_sizes. }
  apply H; [| reflexivity].
  intros tex Htex. discriminate Htex.
Qed.

Lemma LoadFFILibrary_makes_ready (W : World) (c : UPixelOSComponent) (h : History) :
  file_exists W = true ->
  dll_handle W h <> nullptr ->
  exports W "pixelos_destroy" ->
  exports W "pixelos_step" ->
  exports W "pixelos_get_framebuffer" ->
  texture_is_full_size c ->
  exists c' h', LoadFFILibrary W c h = Ret tt c' h' /\ ready c'.
Proof.
  intros He Hh Hd Hs Hg Ht. apply is_null_false in Hh.
  open_body. rewrite He. cbn. rewrite Hh. cbn.
  do 2 eexists. split; [reflexivity |].
  unfold ready. cbn. repeat split; [apply Hd | apply Hs | apply Hg | exact Ht].
Qed.

Lemma BootOS_keeps_ready (W : World) (n : string) (c : UPixelOSComponent) (h : History) :
  ready c ->
  exists c' h', BootOS W n c h = Ret tt c' h' /\ ready c'.
Proof.
  intros (Hd & Hs & Hg & Ht).
  destruct (is_null (pixelos_create c)) eqn:Hc.
  - rewrite BootOS_unresolved by (apply is_null_true; exact Hc).
    do 2 eexists. split; [reflexivity |]. repeat split; assumption.
  - rewrite BootOS_resolved by (apply is_null_false; exact Hc).
    do 2 eexists. split; [reflexivity |]. unfold ready. cbn.
    repeat split; try assumption.
    intros tex Heq. cbn in Heq. injection Heq as <-. reflexivity.
Qed.

Lemma TickComponent_keeps_ready (W : World) (c : UPixelOSComponent) (h : History) :
  frames_fit W ->
  ready c ->
  exists c' h', TickComponent W c h = Ret tt c' h' /\ ready c'.
Proof.
  intros Hfit (Hd & Hs & Hg & Ht).
  destruct (is_null (OSInstance c)) eqn:Hi.
  - rewrite TickComponent_idle by (apply is_null_true; exact Hi).
    do 2 eexists. split; [reflexivity |]. repeat split; assumption.
  - apply is_null_false in Hi.
    destruct (OSDisplayTexture c) as [tex |] eqn:Htex.
    + destruct (vm_get_framebuffer W (h ++ [EvStep (OSInstance c)]) (OSInstance c))
        as [src |] eqn:Hfb.
      * assert (Hlen : GetBulkDataSize tex <= fb_len src).
        { rewrite (Ht tex Htex). apply (Hfit _ _ _ Hfb). }
        rewrite (TickComponent_copies W c h tex src Hi Htex Hs Hg Hfb Hlen).
        do 2 eexists. split; [reflexivity |]. unfold ready. cbn.
        repeat split; try assumption.
        intros t Heq. cbn in Heq. injection Heq as <-. exact (Ht tex Htex).
      * rewrite (TickComponent_no_frame W c h tex Hi Htex Hs Hg Hfb).
        do 2 eexists. split; [reflexivity |]. repeat split; assumption.
    + apply is_null_false in Hi. apply is_null_false in Hs.
      do 2 eexists. split.
      * open_body. rewrite Hi. cbn. rewrite Hs. cbn. rewrite Hi, Htex. reflexivity.
      * repeat split; try assumption. apply is_null_false. exact Hs.
Qed.

Lemma host_calls_keep_ready (W : World) (ks : list HostCall) :
  frames_fit W ->
  forall c h, ready c ->
    exists c' h', host_calls W ks c h = Ret tt c' h' /\ ready c'.
Proof.
  intros Hfit. induction ks as [|k ks IH]; intros c h Hr; simpl.
  - do 2 eexists. split; [reflexivity | exact Hr].
  - unfold bind. destruct k; simpl.
    + destruct (BootOS_keeps_ready W OSName c h Hr) as (c1 & h1 & Hb & Hr1).
      rewrite Hb. apply IH. exact Hr1.
    + destruct (TickComponent_keeps_ready W c h Hfit Hr) as (c1 & h1 & Hb & Hr1).
      rewrite Hb. apply IH. exact Hr1.
Qed.

Lemma EndPlay_returns_when_ready (c : UPixelOSComponent) (h : History) :
  ready c -> returns (EndPlay c h) = true.
Proof.
  intros (Hd & _). apply is_null_false in Hd.
  open_body. split_tests; try reflexivity. congruence.
Qed.

(** X7.  When the module maps, exports the destroy, step and framebuffer
    entries, and never hands back a framebuffer shorter than 3145728 bytes,
    no play session faults: whatever the host calls and in whatever order,
    every call through a function pointer finds it resolved, no copy reads
    past the end of a buffer, and the session returns from its end of play.
    (The create entry need not be exported: boots then do nothing.) *)
Theorem play_returns_with_a_full_module :
  forall (W : World) (raw : UPixelOSComponent) (ks : list HostCall),
    file_exists W = true ->
    dll_handle W [] <> nullptr ->
    exports W "pixelos_destroy" ->
    exports W "pixelos_step" ->
    exports W "pixelos_get_framebuffer" ->
    frames_fit W ->
    returns (play W raw ks) = true.
Proof.
  intros W raw ks He Hh Hd Hs Hg Hfit. unfold play, BeginPlay.
  destruct (LoadFFILibrary_makes_ready W (UPixelOSComponent_ctor raw) [] He Hh Hd Hs Hg)
    as (c1 & h1 & Hload & Hr1).
  { intros tex Htex. discriminate Htex. }
  unfold bind at 1. rewrite Hload.
  destruct (host_calls_keep_ready W ks Hfit c1 h1 Hr1) as (c2 & h2 & Hcalls & Hr2).
  unfold bind. rewrite Hcalls.
  apply EndPlay_returns_when_ready. exact Hr2.
Qed.

Lemma play_returns_with_a_full_module_witness :
  returns (play good_world zeroed
             [CallTick; CallBootOS "PixelOS"; CallTick; CallBootOS "PixelOS"; CallTick]) = true.
Proof.
  apply (play_returns_with_a_full_module good_world zeroed
           [CallTick; CallBootOS "PixelOS"; CallTick; CallBootOS "PixelOS"; CallTick]).
  - reflexivity.
  - vm_compute. discriminate.
  - intros h module. vm_compute. discriminate.
  - intros h module. vm_compute. discriminate.
  - intros h module. vm_compute. discriminate.
  - intros h i fb Hfb. cbn in Hfb. injection Hfb as <-. vm_compute. discriminate.
Defined.

(** X8.  The faults of a tick.  A tick faults exactly when the session holds
    an instance and either the step entry is not resolved, or there is a
    texture and the framebuffer entry is not resolved, or there is a texture
    and the module hands back a framebuffer shorter than the texture.  In
    every other case it returns. *)
Theorem tick_faults_exactly_when :
  forall (W : World) (c : UPixelOSComponent) (h : History),
    returns (TickComponent W c h) = false <->
    OSInstance c <> nullptr
    /\ (pixelos_step c = nullptr
        \/ exists tex,
             OSDisplayTexture c = Some tex
             /\ (pixelos_get_framebuffer c = nullptr
                 \/ exists src,
                      vm_get_framebuffer W (h ++ [EvStep (OSInstance c)]) (OSInstance c) =
                        Some src
                      /\ fb_len src < GetBulkDataSize tex)).
Proof.
  intros W c h. split.
  - intros Hr.
    destruct (is_null (OSInstance c)) eqn:Hi.
    { rewrite TickComponent_idle in Hr by (apply is_null_true; exact Hi). discriminate. }
    apply is_null_false in Hi. split; [exact Hi |].
    destruct (is_null (pixelos_step c)) eqn:Hs.
    { left. apply is_null_true. exact Hs. }
    right. apply is_null_false in Hs.
    destruct (OSDisplayTexture c) as [tex |] eqn:Htex.
    + exists tex. split; [reflexivity |].
      destruct (is_null (pixelos_get_framebuffer c)) eqn:Hg.
      { left. apply is_null_true. exact Hg. }
      right. apply is_null_false in Hg.
      destruct (vm_get_framebuffer W (h ++ [EvStep (OSInstance c)]) (OSInstance c))
        as [src |] eqn:Hfb.
      * exists src. split; [reflexivity |].
        destruct (N.lt_ge_cases (fb_len src) (GetBulkDataSize tex)) as [Hlt | Hge];
          [exact Hlt |].
        rewrite (TickComponent_copies W c h tex src Hi Htex Hs Hg Hfb Hge) in Hr.
        discriminate.
      * rewrite (TickComponent_no_frame W c h tex Hi Htex Hs Hg Hfb) in Hr. discriminate.
    + exfalso. apply is_null_false in Hi. apply is_null_false in Hs.
      revert Hr. open_body. rewrite Hi. cbn. rewrite Hs. cbn. rewrite Hi, Htex.
      discriminate.
  - intros (Hi & Hcase). apply is_null_false in Hi.
    open_body. rewrite Hi. cbn.
    destruct Hcase as [Hs | (tex & Htex & Hcase)].
    + apply is_null_true in Hs. rewrite Hs. reflexivity.
    + destruct (is_null (pixelos_step c)) eqn:Hs; [reflexivity |]. cbn.
      rewrite Hi, Htex. cbn.
      destruct Hcase as [Hg | (src & Hfb & Hlt)].
      * apply is_null_true in Hg. rewrite Hg. reflexivity.
      * destruct (is_null (pixelos_get_framebuffer c)) eqn:Hg; [reflexivity |]. cbn.
        rewrite Hfb. cbn.
        apply N.leb_gt in Hlt. rewrite Hlt. reflexivity.
Qed.

Lemma tick_faults_exactly_when_witness :
  returns (TickComponent partial_world
             (set_OSInstance 100 (set_pixelos_create 11 fresh)) []) = false.
Proof.
  apply (proj2 (tick_faults_exactly_when partial_world
                  (set_OSInstance 100 (set_pixelos_create 11 fresh)) [])).
  split.
  - vm_compute. discriminate.
  - left. reflexivity.
Defined.

Lemma count_snoc (kind : Event -> bool) (h : History) (e : Event) :
  count kind (h ++ [e]) = (count kind h + (if kind e then 1 else 0))%nat.
Proof.
  rewrite count_app. unfold count at 2. cbn. destruct (kind e); reflexivity.
Qed.

Lemma adds_at_most_seq (kind : Event -> bool) (n1 n2 : nat) (m1 m2 : M unit) :
  adds_at_most kind n1 m1 -> adds_at_most kind n2 m2 ->
  adds_at_most kind (n1 + n2) (m1 ;; m2).
Proof.
  intros H1 H2 c h. unfold bind. specialize (H1 c h).
  destruct (m1 c h) as [[] c1 h1 | f h1]; cbn [log_of] in H1.
  - specialize (H2 c1 h1). lia.
  - cbn [log_of]. lia.
Qed.

Ltac refold_count :=
  repeat match goal with
         | |- context [List.length (filter ?k ?l)] =>
             change (List.length (filter k l)) with (count k l)
         end.

Ltac at_most_in_body :=
  intros c h; open_body; split_tests; unfold log_of; refold_count;
  repeat rewrite count_snoc;
  cbv beta iota delta [is_create is_step is_destroy is_free];
  lia.

Lemma host_calls_create_per_boot (W : World) (ks : list HostCall) :
  adds_at_most is_create (List.length (filter is_boot ks)) (host_calls W ks).
Proof.
  induction ks as [|k ks IH]; simpl.
  - intros c h. unfold count. cbn. lia.
  - destruct k; simpl.
    + apply (adds_at_most_seq is_create 1); [| exact IH]. at_most_in_body.
    + apply (adds_at_most_seq is_create 0); [| exact IH]. at_most_in_body.
Qed.

Lemma host_calls_step_per_tick (W : World) (ks : list HostCall) :
  adds_at_most is_step (List.length (filter is_tick ks)) (host_calls W ks).
Proof.
  induction ks as [|k ks IH]; simpl.
  - intros c h. unfold count. cbn. lia.
  - destruct k; simpl.
    + apply (adds_at_most_seq is_step 0); [| exact IH]. at_most_in_body.
    + apply (adds_at_most_seq is_step 1); [| exact IH]. at_most_in_body.
Qed.

Lemma host_calls_add_none (W : World) (kind : Event -> bool) (ks : list HostCall) :
  (forall n, adds_at_most kind 0 (BootOS W n)) ->
  adds_at_most kind 0 (TickComponent W) ->
  adds_at_most kind 0 (host_calls W ks).
Proof.
  intros Hb Ht. induction ks as [|k ks IH]; simpl.
  - intros c h. unfold count. cbn. lia.
  - apply (adds_at_most_seq kind 0 0); [| exact IH].
    destruct k; [apply Hb | apply Ht].
Qed.

(** X9.  What a play session can call at most: one create per boot the host
    asks for, one step per tick, and, whatever the host asks for, one destroy
    and one free of the module in the whole session. *)
Theorem play_calls_at_most :
  forall (W : World) (raw : UPixelOSComponent) (ks : list HostCall),
    (count is_create (log_of (play W raw ks)) <= List.length (filter is_boot ks))%nat
    /\ (count is_step (log_of (play W raw ks)) <= List.length (filter is_tick ks))%nat
    /\ (count is_destroy (log_of (play W raw ks)) <= 1)%nat
    /\ (count is_free (log_of (play W raw ks)) <= 1)%nat.
Proof.
  intros W raw ks. unfold play, BeginPlay, EndPlay.
  assert (Hc : adds_at_most is_create (0 + (List.length (filter is_boot ks) + 0))
                 (LoadFFILibrary W ;; host_calls W ks ;; UnloadFFILibrary)).
  { apply adds_at_most_seq; [at_most_in_body |].
    apply adds_at_most_seq; [apply host_calls_create_per_boot | at_most_in_body]. }
  assert (Hs : adds_at_most is_step (0 + (List.length (filter is_tick ks) + 0))
                 (LoadFFILibrary W ;; host_calls W ks ;; UnloadFFILibrary)).
  { apply adds_at_most_seq; [at_most_in_body |].
    apply adds_at_most_seq; [apply host_calls_step_per_tick | at_most_in_body]. }
  assert (Hd : adds_at_most is_destroy (0 + (0 + 1))
                 (LoadFFILibrary W ;; host_calls W ks ;; UnloadFFILibrary)).
  { apply adds_at_most_seq; [at_most_in_body |].
    apply adds_at_most_seq; [| at_most_in_body].
    apply host_calls_add_none; [intros n |]; at_most_in_body. }
  assert (Hf : adds_at_most is_free (0 + (0 + 1))
                 (LoadFFILibrary W ;; host_calls W ks ;; UnloadFFILibrary)).
  { apply adds_at_most_seq; [at_most_in_body |].
    apply adds_at_most_seq; [| at_most_in_body].
    apply host_calls_add_none; [intros n |]; at_most_in_body. }
  specialize (Hc (UPixelOSComponent_ctor raw) []).
  specialize (Hs (UPixelOSComponent_ctor raw) []).
  specialize (Hd (UPixelOSComponent_ctor raw) []).
  specialize (Hf (UPixelOSComponent_ctor raw) []).
  cbn [count filter List.length] in Hc, Hs, Hd, Hf.
  repeat split; lia.
Qed.

Lemma finishes_copies_seq (m1 m2 : M unit) :
  finishes_copies m1 -> finishes_copies m2 -> finishes_copies (m1 ;; m2).
Proof.
  intros H1 H2 c h. unfold bind. specialize (H1 c h).
  destruct (m1 c h) as [[] c1 h1 | f h1]; [| exact I].
  specialize (H2 c1 h1).
  destruct (m2 c1 h1) as [[] c2 h2 | f h2]; [| exact I].
  destruct H1 as (d1 & Ha1 & Hb1 & Hc1 & Hd1).
  destruct H2 as (d2 & Ha2 & Hb2 & Hc2 & Hd2).
  exists (d1 + d2)%nat. repeat split; lia.
Qed.

Ltac copies_counted :=
  refold_count; repeat rewrite count_snoc;
  cbv beta iota delta [is_lock is_memcpy is_unlock is_update];
  repeat split; lia.

Ltac copies_in_body :=
  intros c h; open_body; split_tests; try exact I;
  first [ exists 0%nat; solve [copies_counted]
        | exists 1%nat; solve [copies_counted] ].

Lemma LoadFFILibrary_finishes_copies (W : World) : finishes_copies (LoadFFILibrary W).
Proof. copies_in_body. Qed.

Lemma UnloadFFILibrary_finishes_copies : finishes_copies UnloadFFILibrary.
Proof. copies_in_body. Qed.

Lemma BootOS_finishes_copies (W : World) (n : string) : finishes_copies (BootOS W n).
Proof. copies_in_body. Qed.

Lemma TickComponent_finishes_copies (W : World) : finishes_copies (TickComponent W).
Proof. copies_in_body. Qed.

Lemma host_calls_finish_copies (W : World) (ks : list HostCall) :
  finishes_copies (host_calls W ks).
Proof.
  induction ks as [|k ks IH]; simpl.
  - intros c h. cbn [ret]. exists 0%nat. repeat split; lia.
  - apply finishes_copies_seq; [| exact IH].
    destruct k; [apply BootOS_finishes_copies | apply TickComponent_finishes_copies].
Qed.

(** X10.  In a play session that returns, every copy that was begun was
    finished: the texture was locked, copied into, unlocked and its resource
    updated the same number of times.  (A session that faults in a copy
    stops with the texture locked, see [short_frame_is_read_past_its_end].) *)
Theorem play_finishes_every_copy :
  forall (W : World) (raw : UPixelOSComponent) (ks : list HostCall),
    returns (play W raw ks) = true ->
    count is_lock (log_of (play W raw ks)) = count is_memcpy (log_of (play W raw ks))
    /\ count is_memcpy (log_of (play W raw ks)) = count is_unlock (log_of (play W raw ks))
    /\ count is_unlock (log_of (play W raw ks)) = count is_update (log_of (play W raw ks)).
Proof.
  intros W raw ks. unfold play.
  assert (H : finishes_copies (BeginPlay W ;; host_calls W ks ;; EndPlay)).
  { apply finishes_copies_seq; [apply LoadFFILibrary_finishes_copies |].
    apply finishes_copies_seq; [apply host_calls_finish_copies |].
    apply UnloadFFILibrary_finishes_copies. }
  specialize (H (UPixelOSComponent_ctor raw) []).
  destruct ((BeginPlay W ;; host_calls W ks ;; EndPlay) (UPixelOSComponent_ctor raw) [])
    as [[] c' h' | f h']; [| discriminate].
  intros _. cbn [log_of].
  destruct H as (d & Ha & Hb & Hc & Hd).
  change (count is_lock []) with 0%nat in Ha.
  change (count is_memcpy []) with 0%nat in Hb.
  change (count is_unlock []) with 0%nat in Hc.
  change (count is_update []) with 0%nat in Hd.
  repeat split; lia.
Qed.

Lemma play_finishes_every_copy_witness :
  count is_lock
    (log_of (play good_world zeroed [CallBootOS "PixelOS"; CallTick; CallTick])) =
  count is_memcpy
    (log_of (play good_world zeroed [CallBootOS "PixelOS"; CallTick; CallTick]))
  /\ count is_memcpy
       (log_of (play good_world zeroed [CallBootOS "PixelOS"; CallTick; CallTick])) =
     count is_unlock
       (log_of (play good_world zeroed [CallBootOS "PixelOS"; CallTick; CallTick]))
  /\ count is_unlock
       (log_of (play good_world zeroed [CallBootOS "PixelOS"; CallTick; CallTick])) =
     count is_update
       (log_of (play good_world zeroed [CallBootOS "PixelOS"; CallTick; CallTick])).
Proof.
  apply (play_finishes_every_copy good_world zeroed
           [CallBootOS "PixelOS"; CallTick; CallTick]).
  vm_compute. reflexivity.
Defined.
